(** * Verification of the [/askquestion] request pipeline (src/app/app.py)

    A shallow embedding of the application code: the header redactor
    [_scrub_headers], the cost calculator [compute_llm_cost_usd] and the
    route handler [ask_question], together with the properties of the
    specification that concern them.

    Conventions of the embedding.
    - A Python [str] is a [string]; each [ascii] stands for one code point
      in U+0000..U+00FF (header names and values reach the application
      decoded as latin-1, one code point per byte).
    - A Python [dict] is an insertion-ordered association list without
      duplicate keys ([dict_wf]); item assignment is [setitem].
    - A Python [float] is an IEEE 754 binary64 number ([spec_float] with
      precision 53 and maximal exponent 1024), a Python [int] is a [Z].
    - Calls into the telemetry SDKs are recorded as a list of [event]s;
      the mutable local [status_code] and the stack of open tracer spans
      are threaded through a state-and-exception monad. *)

From Stdlib Require Import ZArith Ascii String List Bool Lia.
From Stdlib Require Import SpecFloat.
From stdpp Require Import base decidable option list strings gmap.

Set Warnings "-register-all".

Local Open Scope string_scope.
Local Open Scope Z_scope.
Local Open Scope list_scope.

(* ===================================================================== *)
(** * Strings                                                             *)
(* ===================================================================== *)

Module PyStr.

  (** [str.lower()] on one code point of the latin-1 range: A-Z and the
      accented capitals U+00C0..U+00DE (except the multiplication sign
      U+00D7) move up by 32, every other code point is unchanged. *)
Definition lower_char (c : ascii) : ascii :=
    let n := N_of_ascii c in
    if ((65 <=? n) && (n <=? 90))%N
       || ((192 <=? n) && (n <=? 222) && negb (n =? 215))%N
    then ascii_of_N (n + 32)
    else c.

Fixpoint lower (s : string) : string :=
    match s with
    | EmptyString => EmptyString
    | String c s' => String (lower_char c) (lower s')
    end.

  (** Slice [s[:n]]: the first [n] characters, the whole of [s] when it is
      shorter. *)
Fixpoint take (n : nat) (s : string) : string :=
    match n, s with
    | O, _ => EmptyString
    | S _, EmptyString => EmptyString
    | S n', String c s' => String c (take n' s')
    end.

  (** Truthiness of a string: non-empty. *)
Definition truthy (s : string) : bool :=
    match s with EmptyString => false | _ => true end.

End PyStr.

(* ===================================================================== *)
(** * Dictionaries                                                        *)
(* ===================================================================== *)

Module PyDict.
Section Dict.
Context {V : Type}.

Definition dict := list (string * V).

Definition keys (d : dict) : list string := map fst d.

    (** The invariant of every Python dict: keys are unique. *)
Definition dict_wf (d : dict) : Prop := NoDup (keys d).

    (** [d.get(k)] *)
Fixpoint get (d : dict) (k : string) : option V :=
      match d with
      | [] => None
      | (k', v) :: d' => if decide (k' = k) then Some v else get d' k
      end.

    (** [d[k] = v]: an existing key keeps its position and takes the new
        value, a new key is appended. *)
Fixpoint setitem (d : dict) (k : string) (v : V) : dict :=
      match d with
      | [] => [(k, v)]
      | (k', v') :: d' =>
          if decide (k' = k) then (k', v) :: d'
          else (k', v') :: setitem d' k v
      end.

    (** [dict(items)] for an iterable of pairs: items are assigned in
        order, so a repeated key keeps its first position and its last
        value. *)
Definition of_items (items : list (string * V)) : dict :=
      fold_left (fun acc kv => setitem acc kv.1 kv.2) items [].

    (** [{k: f(k, v) for k, v in d.items()}] *)
Definition comprehension (f : string -> V -> V) (d : dict) : dict :=
      fold_left (fun acc kv => setitem acc kv.1 (f kv.1 kv.2)) d [].

    (** Truthiness of a dict: non-empty. *)
Definition truthy (d : dict) : bool :=
      match d with [] => false | _ => true end.

End Dict.
Arguments dict V : clear implicits.
End PyDict.

(* ===================================================================== *)
(** * Redactor: [_scrub_headers] (app.py, lines 149-153)                  *)
(* ===================================================================== *)

Definition REDACTED : string := "[REDACTED]".

(** The set literal bound to [redact] on line 152. *)
Definition redact : gset string :=
  {[ "authorization"; "cookie"; "x-api-key"; "proxy-authorization" ]}.

(** The value expression of the comprehension on line 153:
    [v if k.lower() not in redact else "[REDACTED]"]. *)
Definition scrub_value (k v : string) : string :=
  if decide (PyStr.lower k ∉ redact) then v else REDACTED.

(** [_scrub_headers(h)]; [None] is the absent argument. *)
Definition _scrub_headers (h : option (PyDict.dict string)) : PyDict.dict string :=
  match h with
  | None => []
  | Some d =>
      if negb (PyDict.truthy d) then []
      else PyDict.comprehension scrub_value d
  end.

(** A call of [_scrub_headers] on a reference into an object store: the
    argument names a dict object (or is [None]); the comprehension (or the
    literal [{}]) allocates a new dict object, whose reference is returned.
    Nothing is ever assigned through the argument. *)
Definition loc := positive.

Definition _scrub_headers_call (σ : gmap loc (PyDict.dict string)) (h : option loc)
  : gmap loc (PyDict.dict string) * loc :=
  let r := fresh (dom σ) in
  (<[r := _scrub_headers (h ≫= (σ !!.))]> σ, r).

(* ===================================================================== *)
(** * Floating-point numbers                                              *)
(* ===================================================================== *)

Module PyFloat.

Definition prec : Z := 53.
Definition emax : Z := 1024.

  (** A Python [float]: IEEE 754 binary64. *)
Definition float := spec_float.

Definition mul : float -> float -> float := SFmul prec emax.
Definition add : float -> float -> float := SFadd prec emax.
  (** [x / y] for a non-zero divisor (the only divisor in the code is the
      literal [1000.0]). *)
Definition div : float -> float -> float := SFdiv prec emax.
  (** [x == y] *)
Definition eqb : float -> float -> bool := SFeqb.
  
Definition is_finite (x : float) : bool :=
    match x with
    | S754_zero _ | S754_finite _ _ _ => true
    | S754_infinity _ | S754_nan => false
    end.

  (** The float nearest to the integer [n] (ties to even). *)
Definition of_Z (n : Z) : float := binary_normalize prec emax n 0 false.

  (** Conversion of an [int] operand of a float operation: CPython raises
      [OverflowError] (here [None]) when the nearest float is infinite. *)
Definition of_int (n : Z) : option float :=
    match of_Z n with
    | S754_infinity _ => None
    | x => Some x
    end.

  (** The float literal written [n/d] in decimal, e.g. [0.1] is
      [decimal 1 10]: the float nearest to the quotient. *)
Definition decimal (n : Z) (d : positive) : float :=
    match n with
    | Z0 => S754_zero false
    | Zpos m => SFdiv prec emax (S754_finite false m 0) (S754_finite false d 0)
    | Zneg m => SFdiv prec emax (S754_finite true m 0) (S754_finite false d 0)
    end.

  (** The rational [n / d] ([0 < d]) rounded to the nearest integer, ties
      to the even one. *)
Definition div_half_even (n d : Z) : Z :=
    let q := n / d in
    let r := n mod d in
    match 2 * r ?= d with
    | Lt => q
    | Gt => q + 1
    | Eq => if Z.even q then q else q + 1
    end.

  (** [round(x, ndigits)] for [ndigits >= 0]: the exact value of [x] is
      rounded to [ndigits] decimal places (ties to even) and the resulting
      decimal is converted back to the nearest float; zeros, infinities
      and NaN are returned as they are, and the sign of [x] is kept. *)
Definition round (x : float) (ndigits : N) : float :=
    match x with
    | S754_finite s m e =>
        let p := 10 ^ Z.of_N ndigits in
        let q := match e with
                 | Zneg k => div_half_even (Zpos m * p) (Z.pow_pos 2 k)
                 | Z0 => Zpos m * p
                 | Zpos k => Zpos m * p * Z.pow_pos 2 k
                 end in
        match q, p with
        | Zpos qm, Zpos pm =>
            SFdiv prec emax (S754_finite s qm 0) (S754_finite false pm 0)
        | _, _ => S754_zero s
        end
    | _ => x
    end.

End PyFloat.

(* ===================================================================== *)
(** * Exceptions                                                          *)
(* ===================================================================== *)

(** The exception classes the handler tells apart (line 12 imports the
    three OpenAI ones). In the OpenAI SDK [RateLimitError] and
    [AuthenticationError] derive from [APIError]; every class below derives
    from [Exception]. [OtherError name api] is any other subclass of
    [Exception], [api] telling whether it derives from [APIError] (as
    [APIConnectionError] does). Exceptions that derive from
    [BaseException] only ([KeyboardInterrupt], [SystemExit]) are not
    modelled: [except Exception] lets them pass, and what is proved of
    the handler is proved for the exceptions below. *)
Inductive exc_class : Type :=
  | Exception
  | APIError
  | RateLimitError
  | AuthenticationError
  | OtherError (name : string) (api : bool).

Definition issubclass (c base : exc_class) : bool :=
  match base, c with
  | Exception, _ => true
  | APIError, (APIError | RateLimitError | AuthenticationError) => true
  | APIError, OtherError _ api => api
  | RateLimitError, RateLimitError => true
  | AuthenticationError, AuthenticationError => true
  | OtherError n a, OtherError n' a' => bool_decide (n = n') && Bool.eqb a a'
  | _, _ => false
  end.

(** A raised exception: its class and the text [str(e)]. *)
Record exn : Type := Exn { exn_class : exc_class; exn_str : string }.

Definition isinstance (e : exn) (base : exc_class) : bool :=
  issubclass (exn_class e) base.

Definition AttributeError (msg : string) : exn := Exn (OtherError "AttributeError" false) msg.
Definition OverflowError (msg : string) : exn := Exn (OtherError "OverflowError" false) msg.
(** [werkzeug.exceptions.BadRequest], raised by [request.get_json]. *)
Definition BadRequest (msg : string) : exn := Exn (OtherError "BadRequest" false) msg.

Inductive result (A : Type) : Type :=
  | Ok (a : A)
  | Raise (e : exn).
Arguments Ok {A} a.
Arguments Raise {A} e.

(* ===================================================================== *)
(** * Cost calculator: [compute_llm_cost_usd] (app.py, lines 161-174)     *)
(* ===================================================================== *)

(** The module-level configuration read from the environment at import
    time (lines 60-64 and 161-163). *)
Record config : Type := Config {
  DEFAULT_MODEL : string;
  _SERVICE_NAME : string;
  _ENV : string;
  PRICE_IN_PER_KTOK : PyFloat.float;
  PRICE_OUT_PER_KTOK : PyFloat.float;
  COST_SPLUNK_SCALE : PyFloat.float
}.

(** The operand [tokens / 1000.0]: the [int] is converted to a float,
    which raises [OverflowError] when it is out of range. *)
Definition ktokens (tokens : Z) : result PyFloat.float :=
  match PyFloat.of_int tokens with
  | Some x => Ok (PyFloat.div x (PyFloat.of_Z 1000))
  | None => Raise (OverflowError "int too large to convert to float")
  end.

Definition compute_llm_cost_usd (cfg : config) (prompt_tokens completion_tokens : Z)
  : result (PyFloat.float * PyFloat.float * PyFloat.float) :=
  match ktokens prompt_tokens with
  | Raise e => Raise e
  | Ok kp =>
      let input_cost := PyFloat.round (PyFloat.mul kp (PRICE_IN_PER_KTOK cfg)) 6 in
      match ktokens completion_tokens with
      | Raise e => Raise e
      | Ok kc =>
          let output_cost := PyFloat.round (PyFloat.mul kc (PRICE_OUT_PER_KTOK cfg)) 6 in
          let total_cost := PyFloat.round (PyFloat.add input_cost output_cost) 6 in
          Ok (input_cost, output_cost, total_cost)
      end
  end.

(** Lines 315-317: the figures for the backend that wants pre-scaled
    values. *)
Definition scale_costs (cfg : config) (costs : PyFloat.float * PyFloat.float * PyFloat.float)
  : PyFloat.float * PyFloat.float * PyFloat.float :=
  let '(in_cost, out_cost, total_cost) := costs in
  let in_cost_splunk := PyFloat.round (PyFloat.mul in_cost (COST_SPLUNK_SCALE cfg)) 6 in
  let out_cost_splunk := PyFloat.round (PyFloat.mul out_cost (COST_SPLUNK_SCALE cfg)) 6 in
  let total_cost_sp := PyFloat.round (PyFloat.mul total_cost (COST_SPLUNK_SCALE cfg)) 6 in
  (in_cost_splunk, out_cost_splunk, total_cost_sp).

(* ===================================================================== *)
(** * Values                                                              *)
(* ===================================================================== *)

(** A value decoded from a JSON request body. *)
Inductive json : Type :=
  | JNull
  | JBool (b : bool)
  | JInt (n : Z)
  | JFloat (x : PyFloat.float)
  | JStr (s : string)
  | JList (l : list json)
  | JObject (d : list (string * json)).

Module Json.

  (** Truthiness, as tested by [or], [not], [if] and [bool()]. *)
Definition truthy (j : json) : bool :=
    match j with
    | JNull => false
    | JBool b => b
    | JInt n => negb (n =? 0)%Z
    | JFloat (S754_zero _) => false
    | JFloat _ => true
    | JStr s => PyStr.truthy s
    | JList l => match l with [] => false | _ => true end
    | JObject d => PyDict.truthy d
    end.

  (** [a or b] *)
Definition or (a b : json) : json := if truthy a then a else b.

  (** [data.get(key)]: only a dict has the method; an absent key gives
      [None]. *)
Definition get (data : json) (key : string) : result json :=
    match data with
    | JObject d => Ok (default JNull (PyDict.get d key))
    | _ => Raise (AttributeError "object has no attribute 'get'")
    end.

End Json.

(** Payloads handed to the telemetry SDKs and to [jsonify]. [VStrOf v] is
    the string [str(v)] and [VFString parts] the f-string made of the
    given literal and interpolated parts; both are kept unevaluated. *)
Inductive value : Type :=
  | VNone
  | VBool (b : bool)
  | VInt (n : Z)
  | VFloat (x : PyFloat.float)
  | VStr (s : string)
  | VList (l : list value)
  | VDict (d : list (string * value))
  | VJson (j : json)
  | VStrOf (v : value)
  | VFString (parts : list value).

Definition VOptStr (o : option string) : value :=
  match o with Some s => VStr s | None => VNone end.

Definition VHeaders (d : PyDict.dict string) : value :=
  VDict (map (fun kv => (kv.1, VStr kv.2)) d).

(* ===================================================================== *)
(** * Collaborators                                                       *)
(* ===================================================================== *)

(** The inbound request as the handler reads it: the header list of
    [request.headers] in arrival order, [request.remote_addr], and the
    outcome of [request.get_json(force=True)] ([None] when the body is
    not JSON and [BadRequest] is raised). *)
Record request : Type := Request {
  req_headers : list (string * string);
  req_remote_addr : option string;
  req_json : option json
}.

(** [request.headers.get(name, default)]: the first header whose name
    matches case-insensitively. *)
Fixpoint headers_get (hs : list (string * string)) (name : string) : option string :=
  match hs with
  | [] => None
  | (k, v) :: hs' =>
      if decide (PyStr.lower k = PyStr.lower name) then Some v
      else headers_get hs' name
  end.

(** The [usage] attribute of a completion: missing or [None], a dict, or
    an attribute object such as the SDK's [CompletionUsage] (which has no
    [get] method). *)
Inductive usage : Type :=
  | UsageNone
  | UsageDict (d : PyDict.dict Z)
  | UsageObject (prompt_tokens completion_tokens total_tokens : Z).

(** What lines 281-291 read off a completion:
    [choices[0].message.content] and [usage]. *)
Record completion : Type := Completion {
  content : option string;
  completion_usage : usage
}.

(** Everything the handler obtains from outside during one request: the
    configuration, the two [uuid4] draws, the value of
    [int((time.perf_counter() - started) * 1000)] at the n-th evaluation,
    and the outcome of [client.chat.completions.create] (and of reading
    the answer off it) for the given messages. *)
Record environment : Type := Environment {
  env_config : config;
  env_request_id : string;
  env_session_id : string;
  env_latency_ms : nat -> Z;
  env_create : value -> result completion
}.

(* ===================================================================== *)
(** * Telemetry                                                           *)
(* ===================================================================== *)

Inductive level : Type := INFO | WARNING | ERROR.

Definition attrs := list (string * value).

(** One call into a telemetry SDK. *)
Inductive event : Type :=
  (* metrics *)
  | CounterAdd (instrument : string) (amount : Z) (a : attrs)
  | HistogramRecord (instrument : string) (amount : Z) (a : attrs)
  (* logs; [exc_info] is the exception attached by [logger.exception] *)
  | Log (lvl : level) (msg : string) (extra : attrs) (exc_info : option exn)
  (* Langfuse *)
  | LfStartSpan (name : string)
  | LfStartObservation (kwargs : attrs)
  | LfEnd (exc : option exn)
  | LfUpdateCurrentSpan (kwargs : attrs)
  | LfUpdateCurrentTrace (kwargs : attrs)
  | LfGenerationUpdate (kwargs : attrs)
  (* OpenTelemetry tracer *)
  | OtelStartSpan (name : string) (a : attrs)
  | OtelSetAttribute (span : string) (key : string) (v : value)
  | OtelEndSpan (name : string) (exc : option exn).

(** The mutable state of one execution of the handler. *)
Record state : Type := State {
  telemetry : list event;        (* SDK calls so far, newest first *)
  status_code : Z;               (* the local variable [status_code] *)
  otel_current : list string;    (* open tracer spans, innermost first *)
  clock_reads : nat              (* latency evaluations so far *)
}.

Definition initial_state : state := State [] 0 [] 0.

(** A response [(jsonify(body), status)]. *)
Record response : Type := Response { body : value; status : Z }.

(* ===================================================================== *)
(** * The state-and-exception monad                                       *)
(* ===================================================================== *)

Definition M (A : Type) : Type := state -> result A * state.

#[global] Instance M_ret : MRet M := fun A a st => (Ok a, st).
#[global] Instance M_bind : MBind M := fun A B f m st =>
  match m st with
  | (Ok a, st') => f a st'
  | (Raise e, st') => (Raise e, st')
  end.

Definition raise {A} (e : exn) : M A := fun st => (Raise e, st).

Definition lift {A} (r : result A) : M A := fun st => (r, st).

(** [try: m  except Exception as e: h e] *)
Definition try_except {A} (m : M A) (h : exn -> M A) : M A := fun st =>
  match m st with
  | (Raise e, st') => h e st'
  | r => r
  end.

(** [try: m  finally: fin]; also the unwinding of a pending [return]. *)
Definition try_finally {A} (m : M A) (fin : M unit) : M A := fun st =>
  let '(r, st1) := m st in
  match fin st1 with
  | (Ok _, st2) => (r, st2)
  | (Raise e, st2) => (Raise e, st2)
  end.

Definition when (b : bool) (m : M unit) : M unit := if b then m else mret tt.

Definition emit (e : event) : M unit := fun st =>
  (Ok tt, State (e :: telemetry st) (status_code st) (otel_current st) (clock_reads st)).

Definition set_status_code (c : Z) : M unit := fun st =>
  (Ok tt, State (telemetry st) c (otel_current st) (clock_reads st)).

Definition get_status_code : M Z := fun st => (Ok (status_code st), st).

Definition set_otel_current (l : list string) : M unit := fun st =>
  (Ok tt, State (telemetry st) (status_code st) l (clock_reads st)).

(** [trace.get_current_span()] *)
Definition get_current_span : M (option string) := fun st =>
  (Ok (head (otel_current st)), st).

(** [int((time.perf_counter() - started) * 1000)] *)
Definition read_latency_ms (env : environment) : M Z := fun st =>
  (Ok (env_latency_ms env (clock_reads st)),
   State (telemetry st) (status_code st) (otel_current st) (S (clock_reads st))).

(** [with lf.start_as_current_span(name=name): m] *)
Definition with_lf_span {A} (name : string) (m : M A) : M A := fun st =>
  match emit (LfStartSpan name) st with
  | (_, st0) =>
      let '(r, st1) := m st0 in
      let exc := match r with Raise e => Some e | Ok _ => None end in
      (r, (emit (LfEnd exc) st1).2)
  end.

(** [with lf.start_as_current_observation(...) as generation: m] *)
Definition with_lf_observation {A} (kwargs : attrs) (m : M A) : M A := fun st =>
  match emit (LfStartObservation kwargs) st with
  | (_, st0) =>
      let '(r, st1) := m st0 in
      let exc := match r with Raise e => Some e | Ok _ => None end in
      (r, (emit (LfEnd exc) st1).2)
  end.

(** [with tracer.start_as_current_span(name, attributes=a) as span: m];
    the span is current while [m] runs and is ended on every exit. *)
Definition with_otel_span {A} (name : string) (a : attrs) (m : M A) : M A := fun st =>
  match emit (OtelStartSpan name a) st with
  | (_, st0) =>
      let outer := otel_current st0 in
      match set_otel_current (name :: outer) st0 with
      | (_, st1) =>
          let '(r, st2) := m st1 in
          let exc := match r with Raise e => Some e | Ok _ => None end in
          (r, (emit (OtelEndSpan name exc) (set_otel_current outer st2).2).2)
      end
  end.

(* ===================================================================== *)
(** * The route handler: [ask_question] (app.py, lines 177-428)           *)
(* ===================================================================== *)

Definition ROOT_SPAN : string := "ask_question_request".
Definition LLM_SPAN : string := "openai.chat.completions.create".
Definition ROUTE : string := "/askquestion".

Definition logger_info (msg : string) (extra : attrs) : M unit :=
  emit (Log INFO msg extra None).
Definition logger_warning (msg : string) (extra : attrs) : M unit :=
  emit (Log WARNING msg extra None).
Definition logger_error (msg : string) (extra : attrs) : M unit :=
  emit (Log ERROR msg extra None).
(** [logger.exception]: level ERROR with the exception being handled. *)
Definition logger_exception (e : exn) (msg : string) (extra : attrs) : M unit :=
  emit (Log ERROR msg extra (Some e)).

Definition set_attribute (span key : string) (v : value) : M unit :=
  emit (OtelSetAttribute span key v).

Definition latency_hist_record (latency_ms status_code : Z) : M unit :=
  emit (HistogramRecord "http.server.request.duration" latency_ms
          [("http.route", VStr ROUTE); ("http.status_code", VInt status_code)]).

Definition token_counter_add (cfg : config) (amount : Z) (token_type : string) : M unit :=
  emit (CounterAdd "llm.tokens" amount
          [("llm.token_type", VStr token_type); ("llm.model", VStr (DEFAULT_MODEL cfg))]).

(** Lines 205-207. *)
Definition parse_body (req : request) : result (json * json) :=
  match req_json req with
  | None => Raise (BadRequest "Failed to decode JSON object")
  | Some j =>
      let data := Json.or j (JObject []) in
      match Json.get data "userType" with
      | Raise e => Raise e
      | Ok ut =>
          let user_type := Json.or ut (JStr "anonymous") in
          match Json.get data "question" with
          | Raise e => Raise e
          | Ok question => Ok (user_type, question)
          end
      end
  end.

(** [request.headers.get("X-Forwarded-For", request.remote_addr)] *)
Definition client_ip (req : request) : value :=
  match headers_get (req_headers req) "X-Forwarded-For" with
  | Some v => VStr v
  | None => VOptStr (req_remote_addr req)
  end.

(** [_scrub_headers(dict(request.headers))] *)
Definition scrubbed_headers (req : request) : PyDict.dict string :=
  _scrub_headers (Some (PyDict.of_items (req_headers req))).

Definition system_prompt (user_type : json) : value :=
  VFString [VStr "You are answering as user type: "; VJson user_type; VStr "."].

Definition messages (user_type question : json) : value :=
  VList [VDict [("role", VStr "system"); ("content", system_prompt user_type)];
         VDict [("role", VStr "user"); ("content", VJson question)]].

(** Line 291, [getattr(completion, "usage", None) or {}]. *)
Definition usage_or_empty (u : usage) : usage :=
  match u with
  | UsageNone => UsageDict []
  | UsageDict d => if PyDict.truthy d then UsageDict d else UsageDict []
  | UsageObject _ _ _ => u
  end.

(** [getattr(usage, name, 0)] *)
Definition usage_getattr (u : usage) (name : string) : Z :=
  match u with
  | UsageObject p c t =>
      if decide (name = "prompt_tokens") then p
      else if decide (name = "completion_tokens") then c
      else if decide (name = "total_tokens") then t
      else 0
  | _ => 0
  end.

(** [usage.get(name, 0)] *)
Definition usage_get (u : usage) (name : string) : result Z :=
  match u with
  | UsageDict d => Ok (default 0 (PyDict.get d name))
  | _ => Raise (AttributeError "object has no attribute 'get'")
  end.

(** [int(getattr(usage, name, 0) or usage.get(name, 0) or fallback)] *)
Definition read_tokens (u : usage) (name : string) (fallback : Z) : result Z :=
  let a := usage_getattr u name in
  if negb (a =? 0) then Ok a
  else match usage_get u name with
       | Raise e => Raise e
       | Ok g => Ok (if negb (g =? 0) then g else fallback)
       end.

Section Handler.
Variable env : environment.
Variable req : request.

Let cfg := env_config env.
Let request_id := env_request_id env.
Let session_id := env_session_id env.

  (** Lines 242-256: the branch taken when [question] is falsy. *)
Definition bad_request (user_type : json) : M response :=
    set_status_code 400;;
    status_code ← get_status_code;
    latency_ms ← read_latency_ms env;
    latency_hist_record latency_ms status_code;;
    logger_warning "request_bad_request"
      [("request.id", VStr request_id); ("http.status_code", VInt status_code);
       ("latency_ms", VInt latency_ms)];;
    emit (LfUpdateCurrentSpan
      [("metadata", VDict [("status", VStr "bad_request"); ("http_status", VInt status_code);
                           ("latency_ms", VInt latency_ms)])]);;
    emit (LfUpdateCurrentTrace [("output", VDict [("error", VStr "missing_question")])]);;
    set_attribute ROOT_SPAN "http.status_code" (VInt status_code);;
    set_attribute ROOT_SPAN "error" (VBool true);;
    set_attribute ROOT_SPAN "error.type" (VStr "bad_request");;
    set_attribute ROOT_SPAN "latency_ms" (VInt latency_ms);;
    mret (Response (VDict [("error", VStr "Missing 'question' in body");
                           ("sessionId", VStr session_id);
                           ("userId", VJson user_type)]) status_code).

  (** Lines 281-359: the body of the generation observation. *)
Definition generation (user_type question : json) : M (option string) :=
    completion ← lift (env_create env (messages user_type question));
    let answer := content completion in
    let usage := usage_or_empty (completion_usage completion) in
    prompt_tokens ← lift (read_tokens usage "prompt_tokens" 0);
    completion_tokens ← lift (read_tokens usage "completion_tokens" 0);
    total_tokens ← lift (read_tokens usage "total_tokens" (prompt_tokens + completion_tokens));
    when (negb (prompt_tokens =? 0)) (token_counter_add cfg prompt_tokens "prompt");;
    when (negb (completion_tokens =? 0)) (token_counter_add cfg completion_tokens "completion");;
    logger_info "llm_usage"
      [("request.id", VStr request_id); ("llm.model", VStr (DEFAULT_MODEL cfg));
       ("usage.prompt_tokens", VInt prompt_tokens);
       ("usage.completion_tokens", VInt completion_tokens);
       ("usage.total_tokens", VInt total_tokens)];;
    costs ← lift (compute_llm_cost_usd cfg prompt_tokens completion_tokens);
    let '(in_cost, out_cost, total_cost) := costs in
    let '(in_cost_splunk, out_cost_splunk, total_cost_sp) := scale_costs cfg costs in
    set_attribute LLM_SPAN "llm.usage.prompt_tokens" (VInt prompt_tokens);;
    set_attribute LLM_SPAN "llm.usage.completion_tokens" (VInt completion_tokens);;
    set_attribute LLM_SPAN "llm.usage.total_tokens" (VInt total_tokens);;
    set_attribute LLM_SPAN "llm.cost.input_usd" (VFloat in_cost_splunk);;
    set_attribute LLM_SPAN "llm.cost.output_usd" (VFloat out_cost_splunk);;
    set_attribute LLM_SPAN "llm.cost.usd" (VFloat total_cost_sp);;
    match answer with
    | Some a =>
        when (PyStr.truthy a)
          (set_attribute LLM_SPAN "llm.output.length" (VInt (Z.of_nat (String.length a)));;
           set_attribute LLM_SPAN "llm.output.excerpt" (VStr (PyStr.take 500 a)))
    | None => mret tt
    end;;
    emit (LfGenerationUpdate
      [("output", VOptStr answer);
       ("usage_details", VDict [("prompt_tokens", VInt prompt_tokens);
                                ("completion_tokens", VInt completion_tokens);
                                ("total_tokens", VInt total_tokens)]);
       ("cost_details", VDict [("input", VFloat in_cost); ("output", VFloat out_cost);
                               ("total", VFloat total_cost)])]);;
    emit (LfUpdateCurrentSpan [("metadata", VDict [("llm.cost.source", VStr "app_env_prices")])]);;
    emit (LfUpdateCurrentTrace [("metadata", VDict [("llm.cost.source", VStr "app_env_prices")])]);;
    emit (LfUpdateCurrentSpan
      [("metadata", VDict [("llm.model", VStr (DEFAULT_MODEL cfg));
                           ("llm.usage.prompt_tokens", VInt prompt_tokens);
                           ("llm.usage.completion_tokens", VInt completion_tokens);
                           ("llm.usage.total_tokens", VInt total_tokens);
                           ("llm.cost.input_usd", VFloat in_cost);
                           ("llm.cost.output_usd", VFloat out_cost);
                           ("llm.cost.usd", VFloat total_cost)])]);;
    emit (LfUpdateCurrentTrace
      [("metadata", VDict [("llm.model", VStr (DEFAULT_MODEL cfg));
                           ("llm.cost.usd", VFloat total_cost)])]);;
    set_attribute ROOT_SPAN "llm.usage.prompt_tokens" (VInt prompt_tokens);;
    set_attribute ROOT_SPAN "llm.usage.completion_tokens" (VInt completion_tokens);;
    set_attribute ROOT_SPAN "llm.usage.total_tokens" (VInt total_tokens);;
    set_attribute ROOT_SPAN "llm.cost.input_usd" (VFloat in_cost_splunk);;
    set_attribute ROOT_SPAN "llm.cost.output_usd" (VFloat out_cost_splunk);;
    set_attribute ROOT_SPAN "llm.cost.usd" (VFloat total_cost_sp);;
    mret answer.

  (** Lines 259-279: the tracer span and the generation observation
      around the call. *)
Definition llm_call (user_type question : json) : M (option string) :=
    with_otel_span LLM_SPAN
      [("llm.vendor", VStr "openai"); ("llm.model", VStr (DEFAULT_MODEL cfg));
       ("llm.input.role.system", system_prompt user_type);
       ("lf.user_id", VJson user_type); ("lf.session_id", VStr session_id)]
      (with_lf_observation
         [("as_type", VStr "generation"); ("name", VStr "openai-style-generation");
          ("model", VStr (DEFAULT_MODEL cfg)); ("input", messages user_type question)]
         (generation user_type question)).

  (** Lines 361-374. *)
Definition finish_success (user_type : json) (answer : option string) : M response :=
    set_status_code 200;;
    status_code ← get_status_code;
    latency_ms ← read_latency_ms env;
    emit (LfUpdateCurrentSpan
      [("output", VDict [("answer", VOptStr answer)]);
       ("metadata", VDict [("status", VStr "ok"); ("http_status", VInt status_code);
                           ("latency_ms", VInt latency_ms)])]);;
    emit (LfUpdateCurrentTrace [("output", VDict [("answer", VOptStr answer)])]);;
    set_attribute ROOT_SPAN "http.status_code" (VInt status_code);;
    set_attribute ROOT_SPAN "latency_ms" (VInt latency_ms);;
    match answer with
    | Some a => when (PyStr.truthy a)
                  (set_attribute ROOT_SPAN "llm.output.excerpt" (VStr (PyStr.take 500 a)))
    | None => mret tt
    end;;
    latency_hist_record latency_ms status_code;;
    logger_info "request_success"
      [("request.id", VStr request_id); ("http.status_code", VInt status_code);
       ("latency_ms", VInt latency_ms)];;
    mret (Response (VDict [("answer", VOptStr answer); ("sessionId", VStr session_id);
                           ("userId", VJson user_type)]) status_code).

  (** Lines 205-374: the body of the [try] statement; it always ends in a
      [return] or an exception. *)
Definition try_body : M response :=
    parsed ← lift (parse_body req);
    let '(user_type, question) := parsed in
    logger_info "request_parsed"
      [("request.id", VStr request_id); ("user.type", VJson user_type);
       ("has.question", VBool (Json.truthy question))];;
    emit (LfUpdateCurrentSpan
      [("name", VStr ROOT_SPAN);
       ("input", VDict [("request_id", VStr request_id); ("route", VStr ROUTE);
                        ("client_ip", client_ip req);
                        ("headers", VHeaders (scrubbed_headers req));
                        ("userType", VJson user_type); ("question", VJson question)]);
       ("metadata", VDict [("env", VStr (_ENV cfg)); ("service", VStr (_SERVICE_NAME cfg));
                           ("component", VStr "ask_question")])]);;
    emit (LfUpdateCurrentTrace
      [("user_id", VJson user_type); ("session_id", VStr session_id);
       ("input", VDict [("question", VJson question)])]);;
    set_attribute ROOT_SPAN "lf.user_id" (VJson user_type);;
    set_attribute ROOT_SPAN "request.headers" (VStrOf (VHeaders (scrubbed_headers req)));;
    set_attribute ROOT_SPAN "llm.input.userType" (VJson user_type);;
    when (Json.truthy question) (set_attribute ROOT_SPAN "llm.input.question" (VJson question));;
    if negb (Json.truthy question) then bad_request user_type
    else
      answer ← llm_call user_type question;
      finish_success user_type answer.

  (** Lines 377-411: the [except] clauses, tried in order. *)
Definition except_clauses (e : exn) : M unit :=
    if isinstance e RateLimitError then
      set_status_code 429;;
      status_code ← get_status_code;
      logger_exception e "openai_rate_limited" [("request.id", VStr request_id)];;
      emit (LfUpdateCurrentSpan
        [("output", VDict [("error", VStr "rate_limit"); ("detail", VStr (exn_str e))]);
         ("metadata", VDict [("status", VStr "rate_limited"); ("http_status", VInt status_code)])]);;
      emit (LfUpdateCurrentTrace
        [("metadata", VDict [("error", VBool true); ("error.type", VStr "RateLimitError")])])
    else if isinstance e AuthenticationError then
      set_status_code 401;;
      status_code ← get_status_code;
      logger_exception e "openai_auth_error" [("request.id", VStr request_id)];;
      emit (LfUpdateCurrentSpan
        [("output", VDict [("error", VStr "auth_error");
                           ("detail", VStr "Invalid or missing API key.")]);
         ("metadata", VDict [("status", VStr "auth_error"); ("http_status", VInt status_code)])]);;
      emit (LfUpdateCurrentTrace
        [("metadata", VDict [("error", VBool true); ("error.type", VStr "AuthenticationError")])])
    else if isinstance e APIError then
      set_status_code 502;;
      status_code ← get_status_code;
      logger_exception e "openai_api_error" [("request.id", VStr request_id)];;
      emit (LfUpdateCurrentSpan
        [("output", VDict [("error", VStr "openai_api_error"); ("detail", VStr (exn_str e))]);
         ("metadata", VDict [("status", VStr "openai_api_error"); ("http_status", VInt status_code)])]);;
      emit (LfUpdateCurrentTrace
        [("metadata", VDict [("error", VBool true); ("error.type", VStr "APIError")])])
    else if isinstance e Exception then
      set_status_code 500;;
      status_code ← get_status_code;
      logger_exception e "unhandled_exception" [("request.id", VStr request_id)];;
      emit (LfUpdateCurrentSpan
        [("output", VDict [("error", VStr "server_error"); ("detail", VStr (exn_str e))]);
         ("metadata", VDict [("status", VStr "server_error"); ("http_status", VInt status_code)])]);;
      emit (LfUpdateCurrentTrace
        [("metadata", VDict [("error", VBool true); ("error.type", VStr "Exception")])])
    else raise e.

  (** Lines 413-425: the [finally] clause. *)
Definition finally_clause : M unit :=
    status_code ← get_status_code;
    when (negb (status_code =? 200))
      (latency_ms ← read_latency_ms env;
       latency_hist_record latency_ms status_code;;
       logger_error "request_error"
         [("request.id", VStr request_id); ("http.status_code", VInt status_code);
          ("latency_ms", VInt latency_ms)];;
       span ← get_current_span;
       match span with
       | Some sp =>
           set_attribute sp "error" (VBool true);;
           set_attribute sp "error.status_code" (VInt status_code)
       | None => mret tt
       end).

  (** Lines 204-425. [Some r] is a pending [return r] of the [try] body;
      [None] means an [except] clause ran and control falls through to the
      statement after the [with] blocks. *)
Definition try_statement : M (option response) :=
    try_finally
      (try_except (r ← try_body; mret (Some r))
                  (fun e => except_clauses e;; mret None))
      finally_clause.

Definition ask_question : M response :=
    (* [started = time.perf_counter()] starts the clock read by
       [read_latency_ms] *)
    set_status_code 500;;
    emit (CounterAdd "http.server.request.count" 1
            [("http.route", VStr ROUTE); ("deployment.environment", VStr (_ENV cfg))]);;
    logger_info "request_received"
      [("request.id", VStr request_id); ("session.id", VStr session_id)];;
    returned ←
      with_lf_span ROOT_SPAN
        (with_otel_span ROOT_SPAN
           [("lf.request_id", VStr request_id); ("lf.session_id", VStr session_id);
            ("http.route", VStr ROUTE)]
           try_statement);
    match returned with
    | Some r => mret r
    | None =>
        (* line 428 *)
        status_code ← get_status_code;
        mret (Response (VDict [("error", VStr "request_failed")]) status_code)
    end.

End Handler.

(** One request served from the initial state: the outcome and the final
    state. *)
Definition serve (env : environment) (req : request) : result response * state :=
  ask_question env req initial_state.

(** Everything emitted while serving the request, in program order. *)
Definition emitted (env : environment) (req : request) : list event :=
  rev (telemetry (serve env req).2).

(* ===================================================================== *)
(** * Vocabulary of the specification                                     *)
(* ===================================================================== *)

(** ** Redactor *)

(** The keys the specification names as sensitive, and case-insensitive
    equality of header names. *)
Definition SENSITIVE : list string :=
  ["authorization"; "cookie"; "x-api-key"; "proxy-authorization"].

Definition eq_nocase (a b : string) : Prop := PyStr.lower a = PyStr.lower b.

Definition sensitive_key (k : string) : Prop :=
  ∃ w, w ∈ SENSITIVE ∧ eq_nocase k w.

(** ** Cost calculator *)

(** [x == 0] on floats. *)
Definition is_zero (x : PyFloat.float) : Prop :=
  PyFloat.eqb x (S754_zero false) = true.

(** "Its total equals the sum of its input and output terms", for a
    breakdown [(input, output, total)], with the float comparison [==]. *)
Definition total_is_sum (costs : PyFloat.float * PyFloat.float * PyFloat.float) : Prop :=
  let '(input_cost, output_cost, total_cost) := costs in
  PyFloat.eqb total_cost (PyFloat.add input_cost output_cost) = true.

(** A pricing with an infinite input rate, as [_get_float_env] reads it
    from [OPENAI_PRICE_IN_PER_KTOK=inf]. *)
Definition cfg_infinite_rate : config :=
  Config "gpt-4o-mini" "flask-api" "dev"
    (S754_infinity false) (PyFloat.of_Z 2) (PyFloat.of_Z 1).

(** A pricing of 0.001 per 1000 tokens both ways, with the figures for
    the second backend scaled by 0.3. *)
Definition cfg_fractional_scale : config :=
  Config "gpt-4o-mini" "flask-api" "dev"
    (PyFloat.decimal 1 1000) (PyFloat.decimal 1 1000) (PyFloat.decimal 3 10).

(** ** Request pipeline *)

(** Number of events of a kind among the emitted ones. *)
Fixpoint count (p : event -> bool) (tr : list event) : nat :=
  match tr with
  | [] => 0%nat
  | e :: tr' => ((if p e then 1 else 0) + count p tr')%nat
  end.

(** An observation of the latency histogram. *)
Definition is_latency_observation (e : event) : bool :=
  match e with
  | HistogramRecord name _ _ => bool_decide (name = "http.server.request.duration")
  | _ => false
  end.

(** A terminal status-bearing log event. *)
Definition is_terminal_log (e : event) : bool :=
  match e with
  | Log _ msg _ _ =>
      bool_decide (msg = "request_success") || bool_decide (msg = "request_error")
  | _ => false
  end.

(** An increment of the token counter. *)
Definition is_token_metric (e : event) : bool :=
  match e with
  | CounterAdd name _ _ => bool_decide (name = "llm.tokens")
  | _ => false
  end.

(** The opening of either half of the generation span pair. *)
Definition opens_generation (e : event) : bool :=
  match e with
  | OtelStartSpan name _ => bool_decide (name = LLM_SPAN)
  | LfStartObservation _ => true
  | _ => false
  end.

(** The request takes the missing-question branch. *)
Definition bad_request_path (req : request) : bool :=
  match parse_body req with
  | Ok (_, question) => negb (Json.truthy question)
  | Raise _ => false
  end.

(** The error classifier of the specification: status code and error tag
    by kind of failure. *)
Definition classified_status (e : exn) : Z :=
  match exn_class e with
  | RateLimitError => 429
  | AuthenticationError => 401
  | APIError | OtherError _ true => 502
  | Exception | OtherError _ false => 500
  end.

(** The request fails with [e]: the body cannot be read, or the
    question is there and the inference call raises [e]. *)
Definition fails_with (env : environment) (req : request) (e : exn) : Prop :=
  parse_body req = Raise e
  ∨ ∃ user_type question,
      parse_body req = Ok (user_type, question)
      ∧ Json.truthy question = true
      ∧ env_create env (messages user_type question) = Raise e.

Definition error_tag (status : Z) : string :=
  if status =? 400 then "bad_request"
  else if status =? 429 then "rate_limit"
  else if status =? 401 then "auth_error"
  else if status =? 502 then "openai_api_error"
  else "server_error".

Definition REQUEST_FAILED : value := VDict [("error", VStr "request_failed")].

(** The value is the given string, resp. the boolean [True]. *)
Definition is_str (s : string) (v : value) : bool :=
  match v with VStr s' => bool_decide (s' = s) | _ => false end.

Definition is_true (v : value) : bool :=
  match v with VBool b => b | _ => false end.

(** Attributes put on tracer spans, at their start or later. *)
Definition otel_attributes (tr : list event) : list (string * value) :=
  flat_map (fun e => match e with
                     | OtelStartSpan _ a => a
                     | OtelSetAttribute _ key v => [(key, v)]
                     | _ => []
                     end) tr.

(** Attributes put on Langfuse spans by [update_current_span]: the
    entries of its dict-valued keyword arguments ([output], [metadata],
    [input]) and its other keyword arguments. *)
Definition kwargs_attributes (kwargs : attrs) : list (string * value) :=
  flat_map (fun kv => match kv.2 with VDict d => d | _ => [kv] end) kwargs.

Definition lf_span_attributes (tr : list event) : list (string * value) :=
  flat_map (fun e => match e with
                     | LfUpdateCurrentSpan kwargs => kwargs_attributes kwargs
                     | _ => []
                     end) tr.

(** Some attribute is an [error] flag set to [True], resp. has the tag as
    its value. *)
Definition has_error_flag (a : list (string * value)) : bool :=
  existsb (fun kv => bool_decide (kv.1 = "error") && is_true kv.2) a.

Definition has_tag (tag : string) (a : list (string * value)) : bool :=
  existsb (fun kv => is_str tag kv.2) a.

(** "The error flag and the tag are attributes of both spans of the
    pair." *)
Definition span_pair_tagged (tr : list event) (tag : string) : bool :=
  has_error_flag (otel_attributes tr) && has_tag tag (otel_attributes tr)
  && has_error_flag (lf_span_attributes tr) && has_tag tag (lf_span_attributes tr).

(** The value that one [update_current_span] call puts under [key] of its
    dict-valued keyword argument [section] ([output], [metadata] or
    [input]); other events put none. *)
Definition lf_span_value (section key : string) (e : event) : list value :=
  match e with
  | LfUpdateCurrentSpan kwargs =>
      match PyDict.get kwargs section with
      | Some (VDict d) =>
          match PyDict.get d key with
          | Some v => [v]
          | None => []
          end
      | _ => []
      end
  | _ => []
  end.

(** All the values put on the Langfuse span under [section.key], newest
    first. *)
Definition lf_span_field (section key : string) (tr : list event) : list value :=
  flat_map (lf_span_value section key) tr.

(** The event puts an [error.type] attribute on a tracer span, at its
    start or by [set_attribute]. *)
Definition sets_error_type (e : event) : bool :=
  match e with
  | OtelSetAttribute _ key _ => bool_decide (key = "error.type")
  | OtelStartSpan _ a => existsb (fun kv => bool_decide (kv.1 = "error.type")) a
  | _ => false
  end.



(** Two header lists that differ at most in the values of sensitive
    headers. *)
Definition same_but_secrets (h1 h2 : list (string * string)) : Prop :=
  Forall2 (fun a b => a.1 = b.1 ∧ (sensitive_key a.1 ∨ a.2 = b.2)) h1 h2.

(** *** Sample collaborators *)

Definition sample_config : config :=
  Config "gpt-4o-mini" "flask-api" "dev" (PyFloat.of_Z 1) (PyFloat.of_Z 2) (PyFloat.of_Z 2).

Definition sample_env (outcome : result completion) : environment :=
  Environment sample_config
    "3f2b8c1e-0000-4000-8000-000000000001" "3f2b8c1e-0000-4000-8000-000000000002"
    (fun n => 7 + Z.of_nat n) (fun _ => outcome).

Definition sample_request (body : option json) : request :=
  Request [("Host", "api.local"); ("Authorization", "Bearer s3cr3t"); ("X-Custom", "y")]
          (Some "10.0.0.1") body.

Definition rate_limited : result completion :=
  Raise (Exn RateLimitError "Rate limit reached").

Definition answered (text : string) : result completion :=
  Ok (Completion (Some text) (UsageObject 100 50 150)).

Definition asks (question : string) : option json :=
  Some (JObject [("question", JStr question)]).


(** ** Events of the generation block *)

(** The events that lines 259-359 may emit: token metrics, the usage
    log, the generation span pair, its updates, and [llm.*] attributes. *)
Definition generation_event (e : event) : bool :=
  match e with
  | CounterAdd name _ _ => bool_decide (name = "llm.tokens")
  | Log INFO msg _ None => bool_decide (msg = "llm_usage")
  | LfStartObservation _ | LfEnd _ | LfGenerationUpdate _ => true
  | LfUpdateCurrentSpan kw | LfUpdateCurrentTrace kw =>
      bool_decide (map fst kw = ["metadata"])
  | OtelStartSpan name _ | OtelEndSpan name _ => bool_decide (name = LLM_SPAN)
  | OtelSetAttribute _ key _ => bool_decide (PyStr.take 4 key = "llm.")
  | _ => false
  end.

(** [new] is [old] with events satisfying [P] put in front. *)
Definition extends (P : event -> bool) (old new : list event) : Prop :=
  ∃ mid, new = mid ++ old ∧ forallb P mid = true.

(* ===================================================================== *)
(** * Process bootstrap (app.py, lines 63-76 and 95-127)                  *)
(* ===================================================================== *)

(** [s.startswith(prefix)] *)
Fixpoint startswith (s prefix : string) {struct prefix} : bool :=
  match prefix with
  | EmptyString => true
  | String a prefix' =>
      match s with
      | EmptyString => false
      | String b s' => if decide (a = b) then startswith s' prefix' else false
      end
  end.

(** [sub in s] *)
Fixpoint contains (sub s : string) : bool :=
  match s with
  | EmptyString => startswith s sub
  | String _ s' => startswith s sub || contains sub s'
  end.

(** [s.replace(old, new)] for a non-empty [old], scanning from the left:
    an occurrence of [old] is replaced and skipped, any other character
    is copied. [skip] counts the characters of the occurrence still to
    be passed over. *)
Fixpoint replace_from (old new : string) (skip : nat) (s : string) : string :=
  match s with
  | EmptyString => EmptyString
  | String c s' =>
      match skip with
      | S k => replace_from old new k s'
      | O =>
          if startswith s old
          then (new ++ replace_from old new (String.length old - 1) s')%string
          else String c (replace_from old new 0 s')
      end
  end.

(** The string has no colon. *)
Fixpoint colon_free (s : string) : bool :=
  match s with
  | EmptyString => true
  | String c s' => negb (bool_decide (c = ":"%char)) && colon_free s'
  end.

(** With an empty [old], [new] is put before every character and at the
    end. *)
Fixpoint interleave (new s : string) : string :=
  match s with
  | EmptyString => new
  | String c s' => (new ++ String c (interleave new s'))%string
  end.

Definition str_replace (s old new : string) : string :=
  match old with
  | EmptyString => interleave new s
  | _ => replace_from old new 0 s
  end.

(** [os.environ.setdefault(name, value)] *)
Definition setdefault (environ : gmap string string) (name value : string)
  : gmap string string :=
  match environ !! name with
  | Some _ => environ
  | None => <[name := value]> environ
  end.

(** Line 67: [os.getenv("OTEL_EXPORTER_OTLP_PROTOCOL", "grpc").lower()]. *)
Definition _OTEL_PROTOCOL (environ : gmap string string) : string :=
  PyStr.lower (default "grpc" (environ !! "OTEL_EXPORTER_OTLP_PROTOCOL")).

(** Lines 67-76: what the module-level bootstrap does to [os.environ]. *)
Definition configure_environ (environ : gmap string string) : gmap string string :=
  let protocol := _OTEL_PROTOCOL environ in
  let environ1 :=
    setdefault
      (setdefault (setdefault environ "OTEL_TRACES_EXPORTER" "otlp")
                  "OTEL_METRICS_EXPORTER" "otlp")
      "OTEL_LOGS_EXPORTER" "otlp" in
  match environ1 !! "OTEL_EXPORTER_OTLP_ENDPOINT" with
  | Some _otlp_endpoint =>
      if PyStr.truthy _otlp_endpoint && startswith protocol "http" then
        if contains ":32417" _otlp_endpoint then
          <["OTEL_EXPORTER_OTLP_ENDPOINT" := str_replace _otlp_endpoint ":32417" ":32418"]>
            environ1
        else environ1
      else environ1
  | None => environ1
  end.

(** Lines 95-98, 104-107 and 124-127: the span, metric and log exporters
    are all chosen by the same test. *)
Inductive transport : Type := OTLP_GRPC | OTLP_HTTP.

Definition exporter_transport (protocol : string) : transport :=
  if startswith protocol "grpc" then OTLP_GRPC else OTLP_HTTP.

(* ===================================================================== *)
(** * Further observations on the emitted telemetry                       *)
(* ===================================================================== *)

(** An increment by one of the request counter. *)
Definition is_request_count (e : event) : bool :=
  match e with
  | CounterAdd name amount _ =>
      bool_decide (name = "http.server.request.count") && (amount =? 1)
  | _ => false
  end.

(** The opening, resp. the closing, of a span of either backend. *)
Definition is_span_start (e : event) : bool :=
  match e with
  | OtelStartSpan _ _ | LfStartSpan _ | LfStartObservation _ => true
  | _ => false
  end.

Definition is_span_end (e : event) : bool :=
  match e with
  | OtelEndSpan _ _ | LfEnd _ => true
  | _ => false
  end.

(** The name of a token, cost or answer field. *)
Definition result_key (key : string) : bool :=
  startswith key "llm.usage." || startswith key "llm.cost."
  || startswith key "llm.output." || bool_decide (key = "answer").

(** The event puts a token, cost or answer field on a span, a trace or
    the generation. *)
Definition carries_result (e : event) : bool :=
  match e with
  | OtelSetAttribute _ key _ => result_key key
  | LfGenerationUpdate _ => true
  | LfUpdateCurrentSpan kwargs | LfUpdateCurrentTrace kwargs =>
      existsb (fun kv => result_key kv.1) (kwargs_attributes kwargs)
  | _ => false
  end.

(** The [http.status_code] among the attributes. *)
Definition status_attr (a : attrs) : option Z :=
  match PyDict.get a "http.status_code" with
  | Some (VInt code) => Some code
  | _ => None
  end.

(** A latency observation or terminal log event is tagged with the
    status [code]; other events pass. *)
Definition status_tagged (code : Z) (e : event) : bool :=
  match e with
  | HistogramRecord _ _ a => negb (is_latency_observation e) || bool_decide (status_attr a = Some code)
  | Log _ _ extra _ => negb (is_terminal_log e) || bool_decide (status_attr extra = Some code)
  | _ => true
  end.

(** A log event carries the request identifier; other events pass. *)
Definition carries_request_id (request_id : string) (e : event) : Prop :=
  match e with
  | Log _ _ extra _ => PyDict.get extra "request.id" = Some (VStr request_id)
  | _ => True
  end.

(** A token-counter increment is by a non-zero amount; other events
    pass. *)
Definition nonzero_increment (e : event) : Prop :=
  match e with
  | CounterAdd name amount _ => name = "llm.tokens" → amount ≠ 0
  | _ => True
  end.

(** An answer excerpt put on a tracer span has at most 500 characters;
    other events pass. *)
Definition bounded_excerpt (e : event) : Prop :=
  match e with
  | OtelSetAttribute _ key (VStr s) =>
      key = "llm.output.excerpt" → (String.length s <= 500)%nat
  | _ => True
  end.

(** What every event of the generation block satisfies. *)
Definition generation_event_strict (request_id : string) (e : event) : Prop :=
  generation_event e = true ∧ carries_request_id request_id e
  ∧ nonzero_increment e ∧ bounded_excerpt e.

(** What lines 302-359 record of a usage [(p, c, t)] with the costs
    [costs] and their scaled figures [scaled]: the usage log, the update
    of the Langfuse generation (with the unscaled costs), and the token
    and scaled-cost attributes of the LLM span and of the root span. *)
Definition recorded_usage (env : environment) (answer : option string)
    (p c t : Z) (costs scaled : PyFloat.float * PyFloat.float * PyFloat.float)
  : list event :=
  let '(in_cost, out_cost, total_cost) := costs in
  let '(in_cost_splunk, out_cost_splunk, total_cost_sp) := scaled in
  [ Log INFO "llm_usage"
      [("request.id", VStr (env_request_id env));
       ("llm.model", VStr (DEFAULT_MODEL (env_config env)));
       ("usage.prompt_tokens", VInt p); ("usage.completion_tokens", VInt c);
       ("usage.total_tokens", VInt t)] None;
    LfGenerationUpdate
      [("output", VOptStr answer);
       ("usage_details", VDict [("prompt_tokens", VInt p); ("completion_tokens", VInt c);
                                ("total_tokens", VInt t)]);
       ("cost_details", VDict [("input", VFloat in_cost); ("output", VFloat out_cost);
                               ("total", VFloat total_cost)])];
    OtelSetAttribute LLM_SPAN "llm.usage.prompt_tokens" (VInt p);
    OtelSetAttribute LLM_SPAN "llm.usage.completion_tokens" (VInt c);
    OtelSetAttribute LLM_SPAN "llm.usage.total_tokens" (VInt t);
    OtelSetAttribute LLM_SPAN "llm.cost.input_usd" (VFloat in_cost_splunk);
    OtelSetAttribute LLM_SPAN "llm.cost.output_usd" (VFloat out_cost_splunk);
    OtelSetAttribute LLM_SPAN "llm.cost.usd" (VFloat total_cost_sp);
    OtelSetAttribute ROOT_SPAN "llm.usage.prompt_tokens" (VInt p);
    OtelSetAttribute ROOT_SPAN "llm.usage.completion_tokens" (VInt c);
    OtelSetAttribute ROOT_SPAN "llm.usage.total_tokens" (VInt t);
    OtelSetAttribute ROOT_SPAN "llm.cost.input_usd" (VFloat in_cost_splunk);
    OtelSetAttribute ROOT_SPAN "llm.cost.output_usd" (VFloat out_cost_splunk);
    OtelSetAttribute ROOT_SPAN "llm.cost.usd" (VFloat total_cost_sp) ].

(** The usage of some completion is on record among the events [tr]. *)
Definition usage_on_record (env : environment) (answer : option string)
    (tr : list event) : Prop :=
  ∃ p c t costs,
    compute_llm_cost_usd (env_config env) p c = Ok costs
    ∧ Forall (λ e, In e tr)
        (recorded_usage env answer p c t costs (scale_costs (env_config env) costs)).

(** The newest terminal log event comes right after a latency
    observation with the same latency and the same status code. *)
Definition terminal_log_follows_observation (request_id : string) (code : Z)
    (tr : list event) : Prop :=
  ∃ newer older lvl msg latency,
    tr = newer
         ++ Log lvl msg [("request.id", VStr request_id); ("http.status_code", VInt code);
                         ("latency_ms", VInt latency)] None
         :: HistogramRecord "http.server.request.duration" latency
              [("http.route", VStr "/askquestion"); ("http.status_code", VInt code)]
         :: older
    ∧ is_terminal_log (Log lvl msg [] None) = true
    ∧ count is_terminal_log newer = 0%nat.


(** The statuses the handler answers with. *)
Definition STATUSES : list Z := [200; 400; 401; 429; 500; 502].

(* ===================================================================== *)
(** * Properties of the redactor                                          *)
(* ===================================================================== *)

(** Closes a decidable goal by evaluating its decision procedure. *)
Ltac by_decide :=
  match goal with
  | |- ?P => apply (bool_decide_eq_true_1 P); vm_compute; reflexivity
  end.

Section DictFacts.
Context {V : Type}.
Implicit Types (d acc : PyDict.dict V) (k : string) (v : V).

Lemma setitem_fresh d k v :
    k ∉ PyDict.keys d → PyDict.setitem d k v = d ++ [(k, v)].
  Proof.
    induction d as [|[k' v'] d IH]; simpl; intros Hk; [done|].
    apply not_elem_of_cons in Hk as [Hne Hk].
    destruct (decide (k' = k)) as [->|_]; [done|].
    by rewrite IH.
  Qed.

Lemma keys_setitem_present d k v :
    k ∈ PyDict.keys d → PyDict.keys (PyDict.setitem d k v) = PyDict.keys d.
  Proof.
    induction d as [|[k' v'] d IH]; simpl; intros Hk.
    - by apply elem_of_nil in Hk.
    - destruct (decide (k' = k)) as [->|Hne]; simpl; [done|].
      apply elem_of_cons in Hk as [->|Hk]; [done|].
      by rewrite IH.
  Qed.

Lemma setitem_wf d k v :
    PyDict.dict_wf d → PyDict.dict_wf (PyDict.setitem d k v).
  Proof.
    unfold PyDict.dict_wf. intros Hd.
    destruct (decide (k ∈ PyDict.keys d)) as [Hin|Hnin].
    - by rewrite keys_setitem_present.
    - rewrite setitem_fresh by done.
      unfold PyDict.keys. rewrite map_app. simpl.
      apply NoDup_app. split_and!; [done| |apply NoDup_singleton].
      intros x Hx ->%list_elem_of_singleton. done.
  Qed.

Lemma of_items_wf (items : list (string * V)) :
    PyDict.dict_wf (PyDict.of_items items).
  Proof.
    unfold PyDict.of_items.
    assert (∀ acc, PyDict.dict_wf acc →
              PyDict.dict_wf (fold_left (λ a kv, PyDict.setitem a kv.1 kv.2) items acc)) as H.
    { induction items as [|[k v] items IH]; simpl; [done|].
      intros acc Hacc. apply IH. by apply setitem_wf. }
    apply H. apply NoDup_nil_2.
  Qed.

  (** Assigning the items of a well-formed dict, in order, to a dict that
      has none of its keys appends them. *)
Lemma fold_setitem_app (f : string → V → V) d acc :
    NoDup (PyDict.keys acc ++ PyDict.keys d) →
    fold_left (λ a kv, PyDict.setitem a kv.1 (f kv.1 kv.2)) d acc
    = acc ++ map (λ kv, (kv.1, f kv.1 kv.2)) d.
  Proof.
    revert acc. induction d as [|[k v] d IH]; simpl; intros acc Hnd.
    - by rewrite app_nil_r.
    - apply NoDup_app in Hnd as (Hacc & Hdisj & Hd).
      apply NoDup_cons in Hd as [Hk Hd].
      assert (k ∉ PyDict.keys acc) as Hfresh.
      { intros Hin. apply (Hdisj _ Hin). left. }
      rewrite setitem_fresh by done.
      rewrite IH.
      + by rewrite <- app_assoc.
      + unfold PyDict.keys. rewrite map_app. simpl.
        rewrite <- app_assoc. simpl.
        apply NoDup_app. split_and!; [done| |by apply NoDup_cons].
        intros x Hx. apply Hdisj, Hx.
  Qed.

Lemma comprehension_map (f : string → V → V) d :
    PyDict.dict_wf d →
    PyDict.comprehension f d = map (λ kv, (kv.1, f kv.1 kv.2)) d.
  Proof.
    intros Hd. unfold PyDict.comprehension.
    by rewrite fold_setitem_app.
  Qed.

Lemma keys_map_values (f : string → V → V) d :
    PyDict.keys (map (λ kv, (kv.1, f kv.1 kv.2)) d) = PyDict.keys d.
  Proof. unfold PyDict.keys. rewrite map_map. by apply map_ext. Qed.

Lemma get_map_values (f : string → V → V) d k :
    PyDict.get (map (λ kv, (kv.1, f kv.1 kv.2)) d) k = f k <$> PyDict.get d k.
  Proof.
    induction d as [|[k' v'] d IH]; simpl; [done|].
    destruct (decide (k' = k)) as [->|_]; [done|]. apply IH.
  Qed.

End DictFacts.

Section ScrubFacts.
Implicit Types (h d : PyDict.dict string) (k v : string).

Lemma lower_char_idem (c : ascii) :
    PyStr.lower_char (PyStr.lower_char c) = PyStr.lower_char c.
  Proof. destruct c as [[] [] [] [] [] [] [] []]; reflexivity. Qed.

Lemma lower_idem (s : string) : PyStr.lower (PyStr.lower s) = PyStr.lower s.
  Proof. induction s as [|c s IH]; simpl; [done|]. by rewrite lower_char_idem, IH. Qed.

  (** The membership test of the code decides the specification's
      "case-insensitively equals one of the four names". *)
Lemma sensitive_key_iff k : sensitive_key k ↔ PyStr.lower k ∈ redact.
  Proof.
    unfold sensitive_key, eq_nocase, SENSITIVE, redact. split.
    - intros (w & Hw & Hk). rewrite Hk.
      repeat (apply elem_of_cons in Hw as [->|Hw]); [by_decide..|].
      by apply elem_of_nil in Hw.
    - intros Hin. exists (PyStr.lower k). split; [|by rewrite lower_idem].
      rewrite !elem_of_union, !elem_of_singleton in Hin.
      destruct Hin as [[[->| ->]| ->]| ->]; by_decide.
  Qed.

Lemma scrub_value_sensitive k v : sensitive_key k → scrub_value k v = REDACTED.
  Proof.
    intros Hk%sensitive_key_iff. unfold scrub_value.
    destruct (decide (PyStr.lower k ∉ redact)); done.
  Qed.

Lemma scrub_value_other k v : ¬ sensitive_key k → scrub_value k v = v.
  Proof.
    intros Hk. unfold scrub_value.
    destruct (decide (PyStr.lower k ∉ redact)) as [|Hin]; [done|].
    exfalso. apply Hk, sensitive_key_iff. by apply dec_stable.
  Qed.

Lemma scrub_value_idem k v : scrub_value k (scrub_value k v) = scrub_value k v.
  Proof. unfold scrub_value. destruct (decide (PyStr.lower k ∉ redact)); done. Qed.

  (** On a dict the comprehension rewrites the values in place. *)
Lemma scrub_headers_map h :
    PyDict.dict_wf h →
    _scrub_headers (Some h) = map (λ kv, (kv.1, scrub_value kv.1 kv.2)) h.
  Proof.
    intros Hwf. unfold _scrub_headers.
    destruct h as [|kv h]; [done|]. simpl negb. cbv iota.
    by apply comprehension_map.
  Qed.

Lemma scrub_headers_get h k :
    PyDict.dict_wf h →
    PyDict.get (_scrub_headers (Some h)) k = scrub_value k <$> PyDict.get h k.
  Proof. intros Hwf. rewrite scrub_headers_map by done. apply get_map_values. Qed.

Lemma scrub_headers_keys h :
    PyDict.dict_wf h → PyDict.keys (_scrub_headers (Some h)) = PyDict.keys h.
  Proof. intros Hwf. rewrite scrub_headers_map by done. apply keys_map_values. Qed.

Lemma scrub_headers_wf h :
    PyDict.dict_wf h → PyDict.dict_wf (_scrub_headers (Some h)).
  Proof. intros Hwf. unfold PyDict.dict_wf. by rewrite scrub_headers_keys. Qed.

End ScrubFacts.

(** C3. For every header mapping [h]: a key that case-insensitively
    equals one of [authorization], [cookie], [x-api-key],
    [proxy-authorization] maps to the literal "[REDACTED]" in
    [_scrub_headers(h)], every other key of [h] maps to its original
    value, no key is added, the dict object passed in is left as it was
    (the result is a new object), and an empty or absent argument yields
    the empty mapping. *)
Theorem scrub_headers_redacts
    (h : PyDict.dict string) (σ : gmap loc (PyDict.dict string)) (l : loc) :
  PyDict.dict_wf h →
  σ !! l = Some h →
  (∀ k v, PyDict.get h k = Some v → sensitive_key k →
          PyDict.get (_scrub_headers (Some h)) k = Some "[REDACTED]")
  ∧ (∀ k v, PyDict.get h k = Some v → ¬ sensitive_key k →
            PyDict.get (_scrub_headers (Some h)) k = Some v)
  ∧ (∀ k, PyDict.get h k = None → PyDict.get (_scrub_headers (Some h)) k = None)
  ∧ (_scrub_headers_call σ (Some l)).1 !! l = Some h
  ∧ (_scrub_headers_call σ (Some l)).2 ≠ l
  ∧ (_scrub_headers_call σ (Some l)).1 !! (_scrub_headers_call σ (Some l)).2
    = Some (_scrub_headers (Some h))
  ∧ _scrub_headers (Some []) = []
  ∧ _scrub_headers None = [].
Proof.
  intros Hwf Hl.
  assert (fresh (dom σ) ≠ l) as Hfresh.
  { intros Heq. apply (is_fresh (dom σ)). rewrite Heq. by apply elem_of_dom_2 in Hl. }
  split_and!.
  - intros k v Hget Hk. rewrite scrub_headers_get, Hget by done. simpl.
    by rewrite scrub_value_sensitive.
  - intros k v Hget Hk. rewrite scrub_headers_get, Hget by done. simpl.
    by rewrite scrub_value_other.
  - intros k Hget. by rewrite scrub_headers_get, Hget.
  - unfold _scrub_headers_call. simpl. by rewrite lookup_insert_ne.
  - done.
  - unfold _scrub_headers_call. simpl. rewrite lookup_insert_eq. simpl. by rewrite Hl.
  - reflexivity.
  - reflexivity.
Qed.

Lemma scrub_headers_redacts_witness :
  let h := [("Authorization", "Bearer x"); ("X-Custom", "y")] in
  PyDict.get (_scrub_headers (Some h)) "Authorization" = Some "[REDACTED]"
  ∧ PyDict.get (_scrub_headers (Some h)) "X-Custom" = Some "y".
Proof.
  intros h.
  assert (PyDict.dict_wf h) as Hwf by by_decide.
  assert (({[1%positive := h]} : gmap loc (PyDict.dict string)) !! 1%positive = Some h)
    as Hl by reflexivity.
  destruct (scrub_headers_redacts h {[1%positive := h]} 1%positive Hwf Hl)
    as (Hs & Ho & _).
  split.
  - apply (Hs _ "Bearer x"); [reflexivity|].
    exists "authorization". split; [by_decide|reflexivity].
  - apply (Ho _ "y"); [reflexivity|].
    intros (w & Hw & Heq). unfold SENSITIVE in Hw.
    repeat (apply elem_of_cons in Hw as [->|Hw]); try discriminate Heq.
    by apply elem_of_nil in Hw.
Defined.

(** C10. For every header mapping [h], [_scrub_headers] keeps exactly the
    keys of [h], in their original spelling and order, and applying it
    twice gives the same result as applying it once. *)
Theorem scrub_headers_keys_idempotent (h : PyDict.dict string) :
  PyDict.dict_wf h →
  PyDict.keys (_scrub_headers (Some h)) = PyDict.keys h
  ∧ _scrub_headers (Some (_scrub_headers (Some h))) = _scrub_headers (Some h).
Proof.
  intros Hwf. split; [by apply scrub_headers_keys|].
  rewrite (scrub_headers_map (_scrub_headers (Some h))) by by apply scrub_headers_wf.
  rewrite scrub_headers_map by done.
  rewrite map_map. apply map_ext. intros [k v]. simpl.
  by rewrite scrub_value_idem.
Qed.

Lemma scrub_headers_keys_idempotent_witness :
  let h := [("Cookie", "sid=1"); ("Accept", "*/*"); ("X-API-Key", "k")] in
  PyDict.keys (_scrub_headers (Some h)) = ["Cookie"; "Accept"; "X-API-Key"]
  ∧ _scrub_headers (Some (_scrub_headers (Some h))) = _scrub_headers (Some h).
Proof.
  intros h.
  apply (scrub_headers_keys_idempotent h).
  by_decide.
Defined.

(* ===================================================================== *)
(** * Properties of the cost calculator                                   *)
(* ===================================================================== *)

Section CostFacts.
Import PyFloat.

Lemma ktokens_zero : ktokens 0 = Ok (S754_zero false).
  Proof. reflexivity. Qed.

Lemma mul_zero_finite (s : bool) (r : float) :
    is_finite r = true → ∃ s', mul (S754_zero s) r = S754_zero s'.
  Proof. destruct r; simpl; intros Hr; try discriminate; eauto. Qed.

Lemma round_zero (s : bool) (n : N) : round (S754_zero s) n = S754_zero s.
  Proof. reflexivity. Qed.

Lemma add_zero_zero (s s' : bool) : ∃ s'', add (S754_zero s) (S754_zero s') = S754_zero s''.
  Proof. destruct s, s'; simpl; eauto. Qed.

Lemma is_zero_zero (s : bool) : is_zero (S754_zero s).
  Proof. by destruct s. Qed.

(** Under an infinite input rate zero tokens do not cost zero: the
    product [0.0 * inf] is NaN. *)
Remark cost_zero_tokens_infinite_rate (cfg : config) :
  PRICE_IN_PER_KTOK cfg = S754_infinity false →
  ∃ output_cost total_cost,
    compute_llm_cost_usd cfg 0 0 = Ok (S754_nan, output_cost, total_cost).
Proof. unfold compute_llm_cost_usd. rewrite ktokens_zero. intros ->. simpl. eauto. Qed.

(** A token count beyond the float range makes the division raise. *)
Remark ktokens_overflow : ∃ e, ktokens (2 ^ 1024) = Raise e.
  Proof. vm_compute. eauto. Qed.

End CostFacts.

(** C4, as stated, fails. Under a pricing whose input rate is infinite,
    zero tokens do not cost zero: [0.0 * inf] is NaN, and so are the
    input cost and the total. And a non-negative token count beyond the
    float range has no cost at all: the division raises
    [OverflowError]. *)
Lemma zero_tokens_cost_nan_at_infinite_rate :
  compute_llm_cost_usd cfg_infinite_rate 0 0 = Ok (S754_nan, S754_zero false, S754_nan)
  ∧ ¬ is_zero S754_nan
  ∧ compute_llm_cost_usd sample_config (2 ^ 1024) 0
    = Raise (OverflowError "int too large to convert to float").
Proof.
  split_and!; [vm_compute; reflexivity | vm_compute; discriminate | vm_compute; reflexivity].
Qed.

(** C4, amended. Whenever the token counts convert to floats, the cost calculator
    returns [input_cost = round(prompt_tokens/1000 * input_rate, 6)],
    [output_cost = round(completion_tokens/1000 * output_rate, 6)] and
    [total_cost = round(input_cost + output_cost, 6)]; zero tokens cost
    zero under every finite pricing; and 100 prompt and 50 completion
    tokens at the rates 1 and 2 per 1000 tokens cost (0.1, 0.1, 0.2). *)
Theorem compute_llm_cost_usd_correct :
  (∀ (cfg : config) (p c : Z) (fp fc : PyFloat.float),
     0 ≤ p → 0 ≤ c →
     PyFloat.of_int p = Some fp → PyFloat.of_int c = Some fc →
     let input_cost :=
       PyFloat.round (PyFloat.mul (PyFloat.div fp (PyFloat.of_Z 1000)) (PRICE_IN_PER_KTOK cfg)) 6 in
     let output_cost :=
       PyFloat.round (PyFloat.mul (PyFloat.div fc (PyFloat.of_Z 1000)) (PRICE_OUT_PER_KTOK cfg)) 6 in
     compute_llm_cost_usd cfg p c
     = Ok (input_cost, output_cost, PyFloat.round (PyFloat.add input_cost output_cost) 6))
  ∧ (∀ cfg : config,
       PyFloat.is_finite (PRICE_IN_PER_KTOK cfg) = true →
       PyFloat.is_finite (PRICE_OUT_PER_KTOK cfg) = true →
       ∃ input_cost output_cost total_cost,
         compute_llm_cost_usd cfg 0 0 = Ok (input_cost, output_cost, total_cost)
         ∧ is_zero input_cost ∧ is_zero output_cost ∧ is_zero total_cost)
  ∧ (∀ cfg : config,
       PRICE_IN_PER_KTOK cfg = PyFloat.of_Z 1 →
       PRICE_OUT_PER_KTOK cfg = PyFloat.of_Z 2 →
       compute_llm_cost_usd cfg 100 50
       = Ok (PyFloat.decimal 1 10, PyFloat.decimal 1 10, PyFloat.decimal 2 10)).
Proof.
  split_and!.
  - intros cfg p c fp fc _ _ Hp Hc. unfold compute_llm_cost_usd, ktokens.
    by rewrite Hp, Hc.
  - intros cfg Hin Hout. unfold compute_llm_cost_usd. rewrite ktokens_zero.
    destruct (mul_zero_finite false _ Hin) as [si Hi].
    destruct (mul_zero_finite false _ Hout) as [so Ho].
    rewrite Hi, Ho, !round_zero.
    destruct (add_zero_zero si so) as [st Ht]. rewrite Ht, round_zero.
    eexists _, _, _. split; [reflexivity|].
    split_and!; apply is_zero_zero.
  - intros cfg Hin Hout. unfold compute_llm_cost_usd. rewrite Hin, Hout.
    vm_compute. reflexivity.
Qed.

Lemma compute_llm_cost_usd_correct_witness :
  let cfg := Config "gpt-4o-mini" "flask-api" "dev"
               (PyFloat.decimal 15 100000) (PyFloat.decimal 6 10000) (PyFloat.of_Z 1) in
  compute_llm_cost_usd cfg 1234 56
  = Ok (PyFloat.decimal 185 1000000, PyFloat.decimal 34 1000000, PyFloat.decimal 219 1000000).
Proof.
  intros cfg.
  destruct compute_llm_cost_usd_correct as (Hformula & _ & _).
  rewrite (Hformula cfg 1234 56 (PyFloat.of_Z 1234) (PyFloat.of_Z 56));
    [vm_compute; reflexivity | lia | lia | reflexivity | reflexivity].
Defined.

(** C5, as stated, fails: with both rates at 0.001 per 1000 tokens and
    the scale factor 0.3, one prompt and one completion token cost
    (0.000001, 0.000001, 0.000002); the scaled input and output terms
    both round to 0.0 while the scaled total is 0.000001, which is not
    their sum. *)
Lemma scaled_total_is_not_sum :
  ∃ costs,
    compute_llm_cost_usd cfg_fractional_scale 1 1 = Ok costs
    ∧ costs = (PyFloat.decimal 1 1000000, PyFloat.decimal 1 1000000, PyFloat.decimal 2 1000000)
    ∧ scale_costs cfg_fractional_scale costs
      = (S754_zero false, S754_zero false, PyFloat.decimal 1 1000000)
    ∧ ¬ total_is_sum (scale_costs cfg_fractional_scale costs).
Proof.
  eexists. split; [vm_compute; reflexivity|].
  split; [vm_compute; reflexivity|].
  split; [vm_compute; reflexivity|].
  unfold total_is_sum. vm_compute. discriminate.
Qed.

(** C5, amended. The scaled breakdown multiplies each of the three
    figures of the unscaled breakdown by the scale factor and rounds each
    to 6 decimal digits, so its total is [round(total_cost * scale, 6)]
    (it is not recomputed from the scaled input and output terms); with
    the scale factor 2.0 applied to (0.1, 0.1, 0.2) the scaled total is
    0.4. *)
Theorem scale_costs_correct :
  (∀ (cfg : config) (input_cost output_cost total_cost : PyFloat.float),
     scale_costs cfg (input_cost, output_cost, total_cost)
     = (PyFloat.round (PyFloat.mul input_cost (COST_SPLUNK_SCALE cfg)) 6,
        PyFloat.round (PyFloat.mul output_cost (COST_SPLUNK_SCALE cfg)) 6,
        PyFloat.round (PyFloat.mul total_cost (COST_SPLUNK_SCALE cfg)) 6))
  ∧ (∀ cfg : config,
       COST_SPLUNK_SCALE cfg = PyFloat.of_Z 2 →
       scale_costs cfg (PyFloat.decimal 1 10, PyFloat.decimal 1 10, PyFloat.decimal 2 10)
       = (PyFloat.decimal 2 10, PyFloat.decimal 2 10, PyFloat.decimal 4 10)).
Proof.
  split.
  - reflexivity.
  - intros cfg Hscale. unfold scale_costs. rewrite Hscale. vm_compute. reflexivity.
Qed.

Lemma scale_costs_correct_witness :
  scale_costs (Config "gpt-4o-mini" "flask-api" "dev"
                 (PyFloat.of_Z 1) (PyFloat.of_Z 2) (PyFloat.of_Z 2))
              (PyFloat.decimal 1 10, PyFloat.decimal 1 10, PyFloat.decimal 2 10)
  = (PyFloat.decimal 2 10, PyFloat.decimal 2 10, PyFloat.decimal 4 10).
Proof.
  apply (proj2 scale_costs_correct). reflexivity.
Defined.

(* ===================================================================== *)
(** * Properties of the request pipeline                                  *)
(* ===================================================================== *)

(** ** Symbolic execution of the handler *)

(** One case split on whatever the execution is waiting for. *)
Ltac run_step :=
  match goal with
  | |- context [parse_body ?r] => destruct (parse_body r) as [[? ?]|?] eqn:?
  | |- context [Json.truthy ?q] => destruct (Json.truthy q) eqn:?
  | |- context [env_create ?e ?m] => destruct (env_create e m) as [[? ?]|?] eqn:?
  | |- context [read_tokens ?u ?n ?f] => destruct (read_tokens u n f) eqn:?
  | |- context [compute_llm_cost_usd ?c ?p ?q] =>
      destruct (compute_llm_cost_usd c p q) as [[[? ?] ?]|?] eqn:?
  | |- context [scale_costs ?c ?p] => destruct (scale_costs c p) as [[? ?] ?] eqn:?
  | |- context [(?x =? 0)%Z] => destruct (x =? 0)%Z eqn:?
  | |- context [PyStr.truthy ?a] => destruct (PyStr.truthy a) eqn:?
  | |- context [match ?o with Some _ => _ | None => _ end] => is_var o; destruct o
  end.

(** Evaluation inside the generation block: the arithmetic on token
    counts and costs stays folded. *)
Ltac eval_generation :=
  cbv -[parse_body Json.truthy env_create read_tokens compute_llm_cost_usd scale_costs
        client_ip scrubbed_headers messages system_prompt PyStr.take PyStr.truthy
        isinstance Z.eqb Z.add String.length Z.of_nat usage_or_empty
        env_config env_request_id env_session_id env_latency_ms
        DEFAULT_MODEL _SERVICE_NAME _ENV exn_str VOptStr VHeaders
        extends generation_event count app In classified_status error_tag
        is_terminal_log is_latency_observation is_token_metric opens_generation
        lf_span_field sets_error_type].

(** Evaluation of the handler around the generation block, which stays
    folded. *)
Ltac eval_handler :=
  cbv -[parse_body Json.truthy llm_call
        client_ip scrubbed_headers messages system_prompt PyStr.take PyStr.truthy
        isinstance String.length Z.of_nat
        env_config env_request_id env_session_id env_latency_ms
        DEFAULT_MODEL _SERVICE_NAME _ENV exn_str VOptStr VHeaders
        extends generation_event count app In classified_status error_tag
        is_terminal_log is_latency_observation is_token_metric opens_generation
        lf_span_field sets_error_type].

Section PipelineFacts.

Lemma extends_refl (P : event → bool) (l : list event) : extends P l l.
Proof. by exists []. Qed.

Lemma extends_cons (P : event → bool) (e : event) (old new : list event) :
  P e = true → extends P old new → extends P old (e :: new).
Proof. intros He (mid & -> & Hmid). exists (e :: mid). simpl. by rewrite He, Hmid. Qed.

Lemma count_app (p : event → bool) (l k : list event) :
  count p (l ++ k) = (count p l + count p k)%nat.
Proof. induction l as [|e l IH]; simpl; [done|]. rewrite IH. lia. Qed.

Lemma generation_event_kind (e : event) :
  generation_event e = true →
  is_terminal_log e = false ∧ is_latency_observation e = false.
Proof.
  destruct e as [| |lvl msg extra exc| | | | | | | | |]; simpl; try done.
  destruct lvl, exc; try done.
  by intros ->%bool_decide_eq_true.
Qed.

Lemma count_generation_events (mid : list event) :
  forallb generation_event mid = true →
  count is_terminal_log mid = 0%nat ∧ count is_latency_observation mid = 0%nat.
Proof.
  induction mid as [|e mid IH]; simpl; [done|].
  intros [He Hmid]%andb_true_iff.
  destruct (generation_event_kind e He) as [-> ->].
  by apply IH.
Qed.

(** Every exception of the model is an instance of [Exception], so the
    last [except] clause catches whatever the first three let pass. *)
Lemma isinstance_Exception (e : exn) : isinstance e Exception = true.
Proof. by destruct e as [[] msg]. Qed.

(** The generation block only adds events of its own kind and leaves
    [status_code], the current tracer span and the clock as they were,
    whether it returns or raises. *)
Lemma llm_call_frame (env : environment) (ut q : json) (st : state) :
  extends generation_event (telemetry st) (telemetry (llm_call env ut q st).2)
  ∧ status_code (llm_call env ut q st).2 = status_code st
  ∧ otel_current (llm_call env ut q st).2 = otel_current st
  ∧ clock_reads (llm_call env ut q st).2 = clock_reads st.
Proof.
  destruct st as [tel sc oc cr]. unfold llm_call.
  eval_generation; repeat (run_step; eval_generation).
  all: split; [|done].
  all: repeat (apply extends_cons; [reflexivity|]); apply extends_refl.
Qed.

End PipelineFacts.

(** Replaces the generation block by what [llm_call_frame] says of it. *)
Ltac use_frame :=
  match goal with
  | |- context [llm_call ?e ?u ?q ?s] =>
      let H := fresh "Hframe" in
      let Hmid := fresh "Hmid" in
      let mid := fresh "mid" in
      pose proof (llm_call_frame e u q s) as H;
      destruct (llm_call e u q s) as [[?|?] [? ? ? ?]];
      simpl in H; destruct H as ((mid & -> & Hmid) & -> & -> & ->)
  end.

Ltac run_except :=
  match goal with
  | |- context [isinstance ?e Exception] => rewrite (isinstance_Exception e)
  | |- context [isinstance ?e ?c] => destruct (isinstance e c) eqn:?
  end.

(** Runs the handler through all its paths. *)
Ltac run_handler :=
  eval_handler; repeat (first [use_frame | run_step | run_except]; eval_handler).

Section PipelineOutcomes.

(** The handler lets no exception derived from [Exception] escape. *)
Lemma serve_total (env : environment) (req : request) :
  ∃ r st, serve env req = (Ok r, st).
Proof. run_handler; eauto. Qed.

(** One terminal log event on every path; one latency observation on
    every path but the missing-question one, which has two. *)
Lemma emissions_by_outcome (env : environment) (req : request) :
  count is_terminal_log (telemetry (serve env req).2) = 1%nat
  ∧ count is_latency_observation (telemetry (serve env req).2)
    = if bad_request_path req then 2%nat else 1%nat.
Proof.
  unfold bad_request_path. run_handler.
  all: cbn [count]; rewrite ?count_app;
    try match goal with
        | H : forallb generation_event _ = true |- _ =>
            destruct (count_generation_events _ H) as [-> ->]
        end.
  all: split; reflexivity.
Qed.

End PipelineOutcomes.

(** ** Emissions per request (C1) *)

(** C1 at the failing input. A request whose body is the empty JSON
    object takes the missing-question branch: the branch records the
    latency itself (line 245) and the [finally] clause records it again
    (line 416), so the response is produced with two latency
    observations, next to one terminal log event. *)
Theorem missing_question_records_latency_twice (env : environment) :
  count is_latency_observation
    (telemetry (serve env (sample_request (Some (JObject [])))).2) = 2%nat
  ∧ count is_terminal_log
      (telemetry (serve env (sample_request (Some (JObject [])))).2) = 1%nat.
Proof. split; reflexivity. Qed.

(** ** Failures become responses (C2) *)

Section Failures.

Lemma classified_status_except (e : exn) :
  classified_status e
  = if isinstance e RateLimitError then 429
    else if isinstance e AuthenticationError then 401
    else if isinstance e APIError then 502
    else 500.
Proof. by destruct e as [[| | | |name []] msg]. Qed.

Lemma serve_collaborator_failure (env : environment) (req : request)
    (ut q : json) (e : exn) :
  parse_body req = Ok (ut, q) →
  Json.truthy q = true →
  env_create env (messages ut q) = Raise e →
  ∃ st, serve env req = (Ok (Response REQUEST_FAILED (classified_status e)), st).
Proof.
  intros Hparse Hq Hcreate. rewrite classified_status_except.
  eval_generation. rewrite Hparse. eval_generation. rewrite Hq. eval_generation.
  rewrite Hcreate. eval_generation.
  rewrite (isinstance_Exception e).
  destruct (isinstance e RateLimitError); [eexists; reflexivity|].
  destruct (isinstance e AuthenticationError); [eexists; reflexivity|].
  destruct (isinstance e APIError); eexists; reflexivity.
Qed.

Lemma serve_parse_failure (env : environment) (req : request) (e : exn) :
  parse_body req = Raise e →
  ∃ st, serve env req = (Ok (Response REQUEST_FAILED (classified_status e)), st).
Proof.
  intros Hparse. rewrite classified_status_except.
  eval_generation. rewrite Hparse. eval_generation.
  rewrite (isinstance_Exception e).
  destruct (isinstance e RateLimitError); [eexists; reflexivity|].
  destruct (isinstance e AuthenticationError); [eexists; reflexivity|].
  destruct (isinstance e APIError); eexists; reflexivity.
Qed.

End Failures.

(** C2. Whenever the request body cannot be read or the inference call
    fails, with whatever exception, the handler does not re-raise: it
    returns the generic body [{"error": "request_failed"}] with status 429
    for a rate-limit failure, 401 for an authentication failure, 502 for
    any other API failure and 500 for every other exception. *)
Theorem failures_become_responses (env : environment) (req : request) (e : exn) :
  fails_with env req e →
  ∃ st,
    serve env req
    = (Ok (Response (VDict [("error", VStr "request_failed")]) (classified_status e)), st)
    ∧ (exn_class e = RateLimitError → classified_status e = 429)
    ∧ (exn_class e = AuthenticationError → classified_status e = 401)
    ∧ (isinstance e APIError = true → exn_class e ≠ RateLimitError →
       exn_class e ≠ AuthenticationError → classified_status e = 502)
    ∧ (isinstance e APIError = false → classified_status e = 500).
Proof.
  intros Hfail.
  assert (∃ st, serve env req = (Ok (Response REQUEST_FAILED (classified_status e)), st))
    as [st Hst].
  { destruct Hfail as [Hparse|(ut & q & Hparse & Hq & Hcreate)].
    - by apply serve_parse_failure.
    - by apply (serve_collaborator_failure env req ut q). }
  exists st. split; [exact Hst|].
  unfold classified_status, isinstance.
  destruct e as [[| | | |name []] msg]; simpl; split_and!; intros; congruence.
Qed.

Lemma failures_become_responses_witness :
  ∃ st,
    serve (sample_env rate_limited) (sample_request (asks "What is observability?"))
    = (Ok (Response (VDict [("error", VStr "request_failed")]) 429), st).
Proof.
  destruct (failures_become_responses
              (sample_env rate_limited) (sample_request (asks "What is observability?"))
              (Exn RateLimitError "Rate limit reached")) as (st & Hst & _).
  - right. exists (JStr "anonymous"), (JStr "What is observability?").
    split_and!; reflexivity.
  - exists st. exact Hst.
Defined.

(** ** Missing question (C7) *)

(** C7, as stated, fails: a request without a question whose body is not
    JSON, or is a JSON list, is not answered 400 with the descriptive
    body but 500 with the generic one. *)
Lemma body_without_question_answered_500 :
  (serve (sample_env (answered "unused")) (sample_request None)).1
  = Ok (Response (VDict [("error", VStr "request_failed")]) 500)
  ∧ (serve (sample_env (answered "unused")) (sample_request (Some (JList [JInt 1])))).1
    = Ok (Response (VDict [("error", VStr "request_failed")]) 500).
Proof. split; vm_compute; reflexivity. Qed.

(** C7, amended. When the body decodes to a JSON object, or to a falsy
    value (which the handler replaces by the empty object), and has no
    [question], or a falsy one, the handler answers 400 with the
    descriptive body, opens neither half of the generation span pair and
    increments no token metric. *)
Theorem missing_question_response (env : environment) (req : request)
    (j : json) (d : list (string * json)) :
  req_json req = Some j →
  Json.or j (JObject []) = JObject d →
  Json.truthy (default JNull (PyDict.get d "question")) = false →
  (serve env req).1
  = Ok (Response
          (VDict [("error", VStr "Missing 'question' in body");
                  ("sessionId", VStr (env_session_id env));
                  ("userId", VJson (Json.or (default JNull (PyDict.get d "userType"))
                                            (JStr "anonymous")))])
          400)
  ∧ count opens_generation (telemetry (serve env req).2) = 0%nat
  ∧ count is_token_metric (telemetry (serve env req).2) = 0%nat.
Proof.
  intros Hj Hd Hq.
  assert (parse_body req
          = Ok (Json.or (default JNull (PyDict.get d "userType")) (JStr "anonymous"),
                default JNull (PyDict.get d "question"))) as Hparse.
  { unfold parse_body. rewrite Hj, Hd. reflexivity. }
  remember (default JNull (PyDict.get d "question")) as q eqn:Eq.
  remember (Json.or (default JNull (PyDict.get d "userType")) (JStr "anonymous"))
    as ut eqn:Eut.
  clear Eq Eut.
  eval_generation. rewrite Hparse. eval_generation. rewrite Hq. eval_generation.
  split_and!; reflexivity.
Qed.

Lemma missing_question_response_witness :
  (serve (sample_env (answered "unused"))
         (sample_request (Some (JObject [("userType", JStr "admin"); ("question", JStr "")])))).1
  = Ok (Response
          (VDict [("error", VStr "Missing 'question' in body");
                  ("sessionId", VStr "3f2b8c1e-0000-4000-8000-000000000002");
                  ("userId", VJson (JStr "admin"))])
          400).
Proof.
  apply (missing_question_response
           (sample_env (answered "unused"))
           (sample_request (Some (JObject [("userType", JStr "admin"); ("question", JStr "")])))
           (JObject [("userType", JStr "admin"); ("question", JStr "")])
           [("userType", JStr "admin"); ("question", JStr "")]
           eq_refl eq_refl eq_refl).
Defined.


(** ** Error attributes on the span pair (C6) *)

Ltac find_event := cbn [In]; repeat (first [left; reflexivity | right]).

Section ErrorAttributes.

Lemma lf_span_field_cons (section key : string) (e : event) (tr : list event) :
  lf_span_field section key (e :: tr)
  = lf_span_value section key e ++ lf_span_field section key tr.
Proof. reflexivity. Qed.

Lemma lf_span_field_app (section key : string) (tr tr' : list event) :
  lf_span_field section key (tr ++ tr')
  = lf_span_field section key tr ++ lf_span_field section key tr'.
Proof. apply flat_map_app. Qed.

(** The generation block passes [update_current_span] only a
    [metadata] argument, so it puts nothing under [output]. *)
Lemma lf_span_value_generation (key : string) (e : event) :
  generation_event e = true → lf_span_value "output" key e = [].
Proof.
  destruct e; try done.
  cbn [generation_event lf_span_value]. intros Hkw%bool_decide_eq_true.
  match goal with
  | |- context [PyDict.get ?kw "output"] => destruct kw as [|[k v] [|? ?]]; try done
  end.
  injection Hkw as ->. reflexivity.
Qed.

Lemma lf_span_field_generation (key : string) (mid : list event) :
  forallb generation_event mid = true → lf_span_field "output" key mid = [].
Proof.
  induction mid as [|e mid IH]; [done|].
  cbn [forallb]. intros [He Hmid]%andb_true_iff.
  by rewrite lf_span_field_cons, (lf_span_value_generation key e He), IH.
Qed.

(** The generation block puts no [error.type] on a tracer span, whether
    it returns or raises. *)
Lemma llm_call_no_error_type (env : environment) (ut q : json) (st : state) :
  extends (λ e, negb (sets_error_type e))
    (telemetry st) (telemetry (llm_call env ut q st).2).
Proof.
  destruct st as [tel sc oc cr]. unfold llm_call.
  eval_generation; repeat (run_step; eval_generation).
  all: repeat (apply extends_cons; [reflexivity|]); apply extends_refl.
Qed.

Lemma count_sets_error_type (mid : list event) :
  forallb (λ e, negb (sets_error_type e)) mid = true →
  count sets_error_type mid = 0%nat.
Proof.
  induction mid as [|e mid IH]; [done|].
  cbn [forallb count]. intros [He Hmid]%andb_true_iff.
  apply negb_true_iff in He. by rewrite He, IH.
Qed.

End ErrorAttributes.

Ltac status_listed :=
  repeat first [apply list_elem_of_here | apply list_elem_of_further].

Ltac span_field :=
  first
    [ reflexivity
    | repeat rewrite lf_span_field_cons; rewrite ?lf_span_field_app;
      rewrite ?lf_span_field_generation by assumption; reflexivity ].

Ltac no_error_type :=
  cbn [count]; rewrite ?count_app; rewrite ?count_sets_error_type by assumption;
  reflexivity.

(** [use_frame], with what [llm_call_no_error_type] says besides. *)
Ltac use_frame_error_type :=
  match goal with
  | |- context [llm_call ?e ?u ?q ?s] =>
      let H := fresh "Hframe" in
      let H' := fresh "Hframe" in
      let Hmid := fresh "Hmid" in
      let Hmid' := fresh "Hmid" in
      let Heq := fresh "Heq" in
      let mid := fresh "mid" in
      let mid' := fresh "mid" in
      pose proof (llm_call_frame e u q s) as H;
      pose proof (llm_call_no_error_type e u q s) as H';
      destruct (llm_call e u q s) as [[?|?] [? ? ? ?]];
      simpl in H, H';
      destruct H as ((mid & -> & Hmid) & -> & -> & ->);
      destruct H' as (mid' & Heq & Hmid');
      apply app_inv_tail in Heq; subst mid'
  end.

(** C6, as stated, fails: after a rate-limit failure no tracer span
    carries an attribute with the tag [rate_limit] (the tracer span only
    gets [error] and [error.status_code]), and no Langfuse span update
    carries an [error] flag (the flag goes to the Langfuse trace
    metadata). *)
Lemma rate_limit_tag_not_on_both_spans :
  let tr := telemetry (serve (sample_env rate_limited)
                             (sample_request (asks "What is observability?"))).2 in
  span_pair_tagged tr "rate_limit" = false
  ∧ has_tag "rate_limit" (otel_attributes tr) = false
  ∧ has_error_flag (lf_span_attributes tr) = false
  ∧ has_error_flag (otel_attributes tr) = true
  ∧ has_tag "rate_limit" (lf_span_attributes tr) = true.
Proof. vm_compute. split_and!; reflexivity. Qed.

(** C6, amended. On every path that answers with a status other than
    200 the tracer's root span gets [error = True] and
    [error.status_code]. In the four exception branches the Langfuse span
    gets the error tag of the branch as [output.error], and nothing else
    under that key, and no tracer span gets an [error.type]. In the
    missing-question branch the Langfuse span gets the tag [bad_request]
    as [metadata.status] and nothing as [output.error], and the tracer's
    root span gets [error.type = "bad_request"]. *)
Theorem failure_branch_attributes (env : environment) (req : request)
    (r : response) (st : state) :
  serve env req = (Ok r, st) →
  status r ≠ 200 →
  In (OtelSetAttribute ROOT_SPAN "error" (VBool true)) (telemetry st)
  ∧ In (OtelSetAttribute ROOT_SPAN "error.status_code" (VInt (status r))) (telemetry st)
  ∧ (status r ≠ 400 →
     status r ∈ [429; 401; 502; 500]
     ∧ lf_span_field "output" "error" (telemetry st) = [VStr (error_tag (status r))]
     ∧ count sets_error_type (telemetry st) = 0%nat)
  ∧ (status r = 400 →
     lf_span_field "metadata" "status" (telemetry st) = [VStr "bad_request"]
     ∧ lf_span_field "output" "error" (telemetry st) = []
     ∧ In (OtelSetAttribute ROOT_SPAN "error.type" (VStr "bad_request")) (telemetry st)).
Proof.
  intros Hs Hne.
  assert ((serve env req).1 = Ok r) as Hr by (by rewrite Hs).
  replace st with (serve env req).2 by (by rewrite Hs).
  clear Hs. revert Hr Hne.
  eval_handler; repeat (first [use_frame_error_type | run_step | run_except]; eval_handler).
  all: intros [= <-]; cbn [status]; intros Hne; try done.
  all: split; [find_event|]; split; [find_event|]; split.
  all: let H := fresh in
       intros H;
       first
         [ congruence
         | split_and!; [status_listed | span_field | no_error_type]
         | split_and!; [span_field | span_field | find_event] ].
Qed.

Lemma failure_branch_attributes_witness :
  let tr := telemetry (serve (sample_env rate_limited)
                             (sample_request (asks "What is observability?"))).2 in
  In (OtelSetAttribute ROOT_SPAN "error" (VBool true)) tr
  ∧ In (OtelSetAttribute ROOT_SPAN "error.status_code" (VInt 429)) tr
  ∧ lf_span_field "output" "error" tr = [VStr "rate_limit"]
  ∧ count sets_error_type tr = 0%nat.
Proof.
  intros tr.
  destruct (failure_branch_attributes
              (sample_env rate_limited) (sample_request (asks "What is observability?"))
              (Response REQUEST_FAILED 429)
              (serve (sample_env rate_limited)
                     (sample_request (asks "What is observability?"))).2)
    as (Hflag & Hcode & Hexc & _).
  - vm_compute. reflexivity.
  - simpl. lia.
  - destruct Hexc as (_ & Htag & Htype); [simpl; lia|].
    split_and!; [exact Hflag | exact Hcode | exact Htag | exact Htype].
Defined.

(** ** Finalization of a successful request (C8) *)




(** ** Secrets stay out of the telemetry (C9) *)

Section Secrets.

Lemma forwarded_for_not_sensitive (k : string) :
  PyStr.lower k = PyStr.lower "X-Forwarded-For" → ¬ sensitive_key k.
Proof.
  intros Hk Hs%sensitive_key_iff. rewrite Hk in Hs.
  revert Hs. apply (bool_decide_eq_false_1 _). vm_compute. reflexivity.
Qed.

Lemma headers_get_forwarded_for (h1 h2 : list (string * string)) :
  same_but_secrets h1 h2 →
  headers_get h1 "X-Forwarded-For" = headers_get h2 "X-Forwarded-For".
Proof.
  induction 1 as [|[k1 v1] [k2 v2] h1 h2 [Hk Hv] _ IH]; [done|].
  simpl in Hk, Hv. subst k2. cbn [headers_get].
  destruct (decide (PyStr.lower k1 = PyStr.lower "X-Forwarded-For")) as [Hxff|_]; [|exact IH].
  destruct Hv as [Hs| ->]; [|done].
  by apply forwarded_for_not_sensitive in Hxff.
Qed.

Lemma setitem_same_but_secrets (d1 d2 : PyDict.dict string) (k v1 v2 : string) :
  same_but_secrets d1 d2 →
  sensitive_key k ∨ v1 = v2 →
  same_but_secrets (PyDict.setitem d1 k v1) (PyDict.setitem d2 k v2).
Proof.
  intros Hd Hv. induction Hd as [|[k1 w1] [k2 w2] d1 d2 [Hk Hw] Hd IH]; simpl.
  - constructor; [by split|constructor].
  - simpl in Hk, Hw. subst k2.
    destruct (decide (k1 = k)) as [->|_].
    + constructor; [by split|exact Hd].
    + constructor; [by split|exact IH].
Qed.

Lemma of_items_same_but_secrets (h1 h2 : list (string * string)) :
  same_but_secrets h1 h2 →
  same_but_secrets (PyDict.of_items h1) (PyDict.of_items h2).
Proof.
  unfold PyDict.of_items.
  assert (∀ acc1 acc2, same_but_secrets acc1 acc2 → same_but_secrets h1 h2 →
            same_but_secrets
              (fold_left (λ a kv, PyDict.setitem a kv.1 kv.2) h1 acc1)
              (fold_left (λ a kv, PyDict.setitem a kv.1 kv.2) h2 acc2)) as Hfold.
  { intros acc1 acc2 Hacc Hh. revert acc1 acc2 Hacc.
    induction Hh as [|[k1 v1] [k2 v2] h1 h2 [Hk Hv] _ IH]; intros acc1 acc2 Hacc; [done|].
    simpl in Hk, Hv. subst k2. simpl. apply IH.
    by apply setitem_same_but_secrets. }
  intros Hh. apply Hfold; [constructor|done].
Qed.

Lemma scrub_same_but_secrets (d1 d2 : PyDict.dict string) :
  same_but_secrets d1 d2 →
  map (λ kv, (kv.1, scrub_value kv.1 kv.2)) d1
  = map (λ kv, (kv.1, scrub_value kv.1 kv.2)) d2.
Proof.
  induction 1 as [|[k1 v1] [k2 v2] d1 d2 [Hk Hv] _ IH]; [done|].
  simpl in Hk, Hv. subst k2. simpl. rewrite IH. f_equal. f_equal.
  destruct Hv as [Hs| ->]; [|done].
  by rewrite !scrub_value_sensitive.
Qed.

Lemma scrubbed_headers_same_but_secrets (r1 r2 : request) :
  same_but_secrets (req_headers r1) (req_headers r2) →
  scrubbed_headers r1 = scrubbed_headers r2.
Proof.
  intros Hh. unfold scrubbed_headers.
  rewrite !scrub_headers_map by apply of_items_wf.
  by apply scrub_same_but_secrets, of_items_same_but_secrets.
Qed.

Lemma scrubbed_headers_redacted (req : request) (k v : string) :
  PyDict.get (scrubbed_headers req) k = Some v → sensitive_key k → v = "[REDACTED]".
Proof.
  unfold scrubbed_headers. rewrite scrub_headers_get by apply of_items_wf.
  intros Hget Hk.
  destruct (PyDict.get (PyDict.of_items (req_headers req)) k) as [v0|]; [|done].
  simpl in Hget. rewrite scrub_value_sensitive in Hget by done. by injection Hget as <-.
Qed.

End Secrets.

(** C9. Two requests that differ at most in the values of headers whose
    names case-insensitively equal [authorization], [cookie], [x-api-key]
    or [proxy-authorization] are served with the same response and the
    same emitted telemetry, event for event; and every header value the
    handler attaches under such a name is the literal "[REDACTED]". *)
Theorem secrets_do_not_reach_telemetry (env : environment) (r1 r2 : request) :
  same_but_secrets (req_headers r1) (req_headers r2) →
  req_remote_addr r1 = req_remote_addr r2 →
  req_json r1 = req_json r2 →
  serve env r1 = serve env r2
  ∧ emitted env r1 = emitted env r2
  ∧ (∀ k v, PyDict.get (scrubbed_headers r1) k = Some v → sensitive_key k →
            v = "[REDACTED]").
Proof.
  intros Hh Haddr Hjson.
  assert (parse_body r1 = parse_body r2) as Hparse
    by (unfold parse_body; by rewrite Hjson).
  assert (client_ip r1 = client_ip r2) as Hip
    by (unfold client_ip; by rewrite (headers_get_forwarded_for _ _ Hh), Haddr).
  pose proof (scrubbed_headers_same_but_secrets r1 r2 Hh) as Hscrub.
  assert (serve env r1 = serve env r2) as Hserve.
  { unfold serve, ask_question, try_statement, try_body.
    by rewrite Hparse, Hip, Hscrub. }
  split_and!; [done | unfold emitted; by rewrite Hserve | apply scrubbed_headers_redacted].
Qed.

Lemma secrets_do_not_reach_telemetry_witness :
  emitted (sample_env (answered "Observability is asking questions."))
          (Request [("Authorization", "Bearer s3cr3t"); ("X-Custom", "y")]
                   (Some "10.0.0.1") (asks "What is observability?"))
  = emitted (sample_env (answered "Observability is asking questions."))
            (Request [("Authorization", "Bearer 0th3r"); ("X-Custom", "y")]
                     (Some "10.0.0.1") (asks "What is observability?")).
Proof.
  apply (secrets_do_not_reach_telemetry
           (sample_env (answered "Observability is asking questions."))
           (Request [("Authorization", "Bearer s3cr3t"); ("X-Custom", "y")]
                    (Some "10.0.0.1") (asks "What is observability?"))
           (Request [("Authorization", "Bearer 0th3r"); ("X-Custom", "y")]
                    (Some "10.0.0.1") (asks "What is observability?"))).
  - constructor; [|constructor; [|constructor]]; (split; [reflexivity|]).
    + left. exists "authorization". split; [by_decide|reflexivity].
    + right. reflexivity.
  - reflexivity.
  - reflexivity.
Defined.

(* ===================================================================== *)
(** * Further properties of the request pipeline                          *)
(* ===================================================================== *)

(** The events put in front of [old] to make [new]. *)
Ltac events_since new old :=
  lazymatch new with
  | old => constr:(@nil event)
  | ?e :: ?rest => let m := events_since rest old in constr:(e :: m)
  end.

Lemma length_take (n : nat) (s : string) : (String.length (PyStr.take n s) <= n)%nat.
Proof.
  revert s. induction n as [|n IH]; intros [|c s]; simpl; try lia.
  specialize (IH s). lia.
Qed.

Ltac strict_event :=
  split_and!;
  [ reflexivity
  | first [exact I | reflexivity]
  | first [exact I | intros _; by apply Z.eqb_neq | intros [=]]
  | first [exact I | intros _; apply length_take | intros [=]] ].

(** The events of the list that are newer than its terminal log event. *)
Ltac newer_than_terminal l :=
  lazymatch l with
  | Log _ "request_success" _ _ :: _ => constr:(@nil event)
  | Log _ "request_error" _ _ :: _ => constr:(@nil event)
  | ?e :: ?rest => let m := newer_than_terminal rest in constr:(e :: m)
  end.

(** [eval_generation] with the statement under proof kept folded. *)
Ltac eval_generation_under P :=
  cbv -[P parse_body Json.truthy env_create read_tokens compute_llm_cost_usd scale_costs
        client_ip scrubbed_headers messages system_prompt PyStr.take PyStr.truthy
        isinstance Z.eqb Z.add String.length Z.of_nat usage_or_empty
        env_config env_request_id env_session_id env_latency_ms
        DEFAULT_MODEL _SERVICE_NAME _ENV exn_str VOptStr VHeaders].

Section GenerationTrace.

(** What the generation block emits, in more detail than
    [llm_call_frame]: its log events carry the request identifier, its
    token increments are non-zero, it opens and closes two spans, and
    when it raises it has put no token, cost or answer field
    anywhere. *)
Lemma llm_call_trace (env : environment) (ut q : json) (st : state) :
  ∃ mid,
    telemetry (llm_call env ut q st).2 = mid ++ telemetry st
    ∧ Forall (generation_event_strict (env_request_id env)) mid
    ∧ count is_span_start mid = 2%nat
    ∧ count is_span_end mid = 2%nat
    ∧ (∀ e, (llm_call env ut q st).1 = Raise e → count carries_result mid = 0%nat)
    ∧ (∀ answer, (llm_call env ut q st).1 = Ok answer → usage_on_record env answer mid).
Proof.
  destruct st as [tel sc oc cr].
  set (P := λ res : result (option string) * state,
         ∃ mid,
           telemetry res.2 = mid ++ tel
           ∧ Forall (generation_event_strict (env_request_id env)) mid
           ∧ count is_span_start mid = 2%nat
           ∧ count is_span_end mid = 2%nat
           ∧ (∀ e, res.1 = Raise e → count carries_result mid = 0%nat)
           ∧ (∀ answer, res.1 = Ok answer → usage_on_record env answer mid)).
  change (P (llm_call env ut q (State tel sc oc cr))).
  unfold llm_call.
  eval_generation_under P; repeat (run_step; eval_generation_under P).
  all: subst P; cbv beta; cbn [fst snd telemetry].
  all: match goal with
       | |- ∃ mid, ?new = mid ++ ?old ∧ _ =>
           let m := events_since new old in exists m
       end.
  all: split; [reflexivity|].
  all: split; [repeat (apply Forall_cons; split; [strict_event|]); apply Forall_nil_2|].
  all: split; [reflexivity|].
  all: split; [reflexivity|].
  all: split; [intros e1 He; first [discriminate He | reflexivity]|].
  all: intros answer [= <-].
  all: eexists _, _, _, _; split; [eassumption|].
  all: match goal with
       | H : scale_costs _ _ = ?scaled |- context [scale_costs ?cfg ?costs] =>
           replace (scale_costs cfg costs) with scaled by (symmetry; exact H)
       end.
  all: repeat (apply Forall_cons; split; [find_event|]); apply Forall_nil_2.
Qed.

End GenerationTrace.

(** [eval_handler] with the statement under proof kept folded. *)
Ltac eval_handler_under P :=
  cbv -[P parse_body Json.truthy llm_call
        client_ip scrubbed_headers messages system_prompt PyStr.take PyStr.truthy
        isinstance String.length Z.of_nat
        env_config env_request_id env_session_id env_latency_ms
        DEFAULT_MODEL _SERVICE_NAME _ENV exn_str VOptStr VHeaders].

(** Replaces the generation block by what [llm_call_frame] and
    [llm_call_trace] say of it. *)
Ltac use_trace :=
  match goal with
  | |- context [llm_call ?e ?u ?q ?s] =>
      let Hf := fresh "Hframe" in
      let Ht := fresh "Htrace" in
      let mid := fresh "mid" in
      let mid' := fresh "mid" in
      let Heq := fresh "Heq" in
      pose proof (llm_call_frame e u q s) as Hf;
      pose proof (llm_call_trace e u q s) as Ht;
      destruct (llm_call e u q s) as [[?|?] [? ? ? ?]];
      cbn [fst snd telemetry status_code otel_current clock_reads] in Hf, Ht;
      destruct Hf as ((mid & -> & _) & -> & -> & ->);
      destruct Ht as (mid' & Heq & Ht);
      apply app_inv_tail in Heq; subst mid'
  end.

Ltac run_handler_under P :=
  eval_handler_under P;
  repeat (first [use_trace | run_step | run_except]; eval_handler_under P).

Section HandlerFacts.

Lemma count_strict_events (p : event → bool) (request_id : string) (mid : list event) :
  (∀ e, generation_event e = true → p e = false) →
  Forall (generation_event_strict request_id) mid →
  count p mid = 0%nat.
Proof.
  intros Hp. induction 1 as [|e mid [He _] _ IH]; [done|].
  cbn [count]. by rewrite (Hp e He), IH.
Qed.

Lemma generation_event_not_request_count (e : event) :
  generation_event e = true → is_request_count e = false.
Proof.
  destruct e; try done. cbn. intros ->%bool_decide_eq_true. done.
Qed.

Lemma generation_event_status_tagged (code : Z) (e : event) :
  generation_event e = true → status_tagged code e = true.
Proof.
  intros He. destruct (generation_event_kind e He) as [Hlog Hlat].
  destruct e; try done. unfold status_tagged. by rewrite Hlog.
Qed.

(** The facts about a served request that the theorems below quote. *)
Lemma handler_facts (env : environment) (req : request) :
  ∃ r,
    (serve env req).1 = Ok r
    ∧ status r ∈ STATUSES
    ∧ count is_request_count (telemetry (serve env req).2) = 1%nat
    ∧ Forall (λ e, status_tagged (status r) e = true) (telemetry (serve env req).2)
    ∧ Forall (carries_request_id (env_request_id env)) (telemetry (serve env req).2)
    ∧ Forall nonzero_increment (telemetry (serve env req).2)
    ∧ count is_span_start (telemetry (serve env req).2)
      = count is_span_end (telemetry (serve env req).2)
    ∧ otel_current (serve env req).2 = []
    ∧ (status r ≠ 200 → count carries_result (telemetry (serve env req).2) = 0%nat)
    ∧ Forall bounded_excerpt (telemetry (serve env req).2)
    ∧ terminal_log_follows_observation (env_request_id env) (status r)
        (telemetry (serve env req).2)
    ∧ (status r = 200 →
       ∃ answer, usage_on_record env answer (telemetry (serve env req).2)).
Proof.
  set (P := λ res : result response * state,
         ∃ r,
           res.1 = Ok r
           ∧ status r ∈ STATUSES
           ∧ count is_request_count (telemetry res.2) = 1%nat
           ∧ Forall (λ e, status_tagged (status r) e = true) (telemetry res.2)
           ∧ Forall (carries_request_id (env_request_id env)) (telemetry res.2)
           ∧ Forall nonzero_increment (telemetry res.2)
           ∧ count is_span_start (telemetry res.2) = count is_span_end (telemetry res.2)
           ∧ otel_current res.2 = []
           ∧ (status r ≠ 200 → count carries_result (telemetry res.2) = 0%nat)
           ∧ Forall bounded_excerpt (telemetry res.2)
           ∧ terminal_log_follows_observation (env_request_id env) (status r)
               (telemetry res.2)
           ∧ (status r = 200 → ∃ answer, usage_on_record env answer (telemetry res.2))).
  change (P (serve env req)).
  run_handler_under P.
  all: subst P; cbv beta; cbn [fst snd telemetry otel_current].
  all: eexists; split; [reflexivity|]; cbn [status].
  all: try destruct Htrace as (Hstrict & Hstart & Hend & Hraise & Hrecord).
  all: split; [by_decide|].
  all: split;
    [cbn [count]; rewrite ?count_app;
     rewrite ?(count_strict_events _ _ _ generation_event_not_request_count Hstrict);
     reflexivity|].
  all: split;
    [repeat first
       [ apply Forall_nil_2
       | apply Forall_cons; split; [reflexivity|]
       | apply Forall_app; split;
         [eapply Forall_impl; [exact Hstrict|];
          intros ? [? _]; by apply generation_event_status_tagged|] ]|].
  all: split;
    [repeat first
       [ apply Forall_nil_2
       | apply Forall_cons; split; [first [exact I | reflexivity]|]
       | apply Forall_app; split;
         [eapply Forall_impl; [exact Hstrict|]; by intros ? (_ & ? & _)|] ]|].
  all: split;
    [repeat first
       [ apply Forall_nil_2
       | apply Forall_cons; split; [first [exact I | intros [=]]|]
       | apply Forall_app; split;
         [eapply Forall_impl; [exact Hstrict|]; by intros ? (_ & _ & ? & _)|] ]|].
  all: split; [cbn [count]; rewrite ?count_app, ?Hstart, ?Hend; reflexivity|].
  all: split; [reflexivity|].
  all: split;
    [intros Hne; try done;
     cbn [count]; rewrite ?count_app; try rewrite (Hraise _ eq_refl); reflexivity|].
  all: split;
    [repeat first
       [ apply Forall_nil_2
       | apply Forall_cons; split;
         [first [exact I | intros _; apply length_take | intros [=]]|]
       | apply Forall_app; split;
         [eapply Forall_impl; [exact Hstrict|]; by intros ? (_ & _ & _ & ?)|] ]|].
  all: split;
    [match goal with
     | |- terminal_log_follows_observation _ _ ?tr =>
         let m := newer_than_terminal tr in
         exists m; eexists _, _, _, _; split_and!; reflexivity
     end|].
  all: intros H200; try discriminate H200.
  all: destruct (Hrecord _ eq_refl) as (p & c & t & costs & Hcost & Hevents).
  all: eexists; exists p, c, t, costs; split; [exact Hcost|].
  all: eapply Forall_impl; [exact Hevents|].
  all: intros e He; repeat apply in_cons; apply in_or_app; by left.
Qed.

End HandlerFacts.

(** X1. Every request, whatever becomes of it, increments the request
    counter [http.server.request.count] exactly once, by one. *)
Theorem request_counted_once (env : environment) (req : request) :
  count is_request_count (telemetry (serve env req).2) = 1%nat.
Proof. by destruct (handler_facts env req) as (r & _ & _ & H & _). Qed.

(** X2. Whenever the body decoder, the inference call and the usage
    extraction raise only exceptions derived from [Exception], which are
    the exceptions of this model, the handler returns a response, and
    only with one of the statuses 200, 400, 401, 429, 500 and 502. *)
Theorem response_statuses (env : environment) (req : request) :
  ∃ r, (serve env req).1 = Ok r ∧ status r ∈ [200; 400; 401; 429; 500; 502].
Proof. destruct (handler_facts env req) as (r & Hr & Hs & _). by exists r. Qed.

(** X3. Every latency observation and every terminal log event of a
    request is tagged with the status code of the response that is
    returned. *)
Theorem status_reflects_outcome (env : environment) (req : request) :
  ∃ r, (serve env req).1 = Ok r
       ∧ Forall (λ e, status_tagged (status r) e = true) (telemetry (serve env req).2).
Proof. destruct (handler_facts env req) as (r & Hr & _ & _ & H & _). by exists r. Qed.

(** X4. Every log event of a request carries the request identifier
    under [request.id]. *)
Theorem log_events_carry_request_id (env : environment) (req : request) :
  Forall (carries_request_id (env_request_id env)) (telemetry (serve env req).2).
Proof. by destruct (handler_facts env req) as (r & _ & _ & _ & _ & H & _). Qed.

(** X5. The token counter is never incremented by zero. *)
Theorem token_increments_nonzero (env : environment) (req : request) :
  Forall nonzero_increment (telemetry (serve env req).2).
Proof. by destruct (handler_facts env req) as (r & _ & _ & _ & _ & _ & H & _). Qed.

(** X6. On every path, also when the inference call raises, each span
    that was opened on either backend has been closed by the time the
    response is returned, and no tracer span is left current. *)
Theorem spans_balanced (env : environment) (req : request) :
  count is_span_start (telemetry (serve env req).2)
  = count is_span_end (telemetry (serve env req).2)
  ∧ otel_current (serve env req).2 = [].
Proof. by destruct (handler_facts env req) as (r & _ & _ & _ & _ & _ & _ & H1 & H2 & _). Qed.

(** X7. A request that is not answered 200 leaves no token, cost or
    answer field on any span, trace or generation. *)
Theorem failure_carries_no_result (env : environment) (req : request)
    (r : response) (st : state) :
  serve env req = (Ok r, st) →
  status r ≠ 200 →
  count carries_result (telemetry st) = 0%nat.
Proof.
  intros Hs Hne.
  destruct (handler_facts env req) as (r' & Hr & _ & _ & _ & _ & _ & _ & _ & H & _).
  rewrite Hs in Hr, H. cbn [fst snd] in Hr, H. injection Hr as <-. by apply H.
Qed.

Lemma failure_carries_no_result_witness :
  ∃ st,
    serve (sample_env rate_limited) (sample_request (asks "What is observability?"))
    = (Ok (Response REQUEST_FAILED 429), st)
    ∧ count carries_result (telemetry st) = 0%nat.
Proof.
  eexists. split; [vm_compute; reflexivity|].
  eapply (failure_carries_no_result
            (sample_env rate_limited) (sample_request (asks "What is observability?"))
            (Response REQUEST_FAILED 429)).
  - vm_compute. reflexivity.
  - simpl. lia.
Defined.

Section RequestBody.

Lemma compute_cost_zero_tokens (cfg : config) :
  ∃ costs, compute_llm_cost_usd cfg 0 0 = Ok costs.
Proof. unfold compute_llm_cost_usd. rewrite ktokens_zero. eauto. Qed.

Lemma read_tokens_empty (name : string) (fallback : Z) :
  read_tokens (UsageDict []) name fallback = Ok fallback.
Proof. reflexivity. Qed.

Lemma parse_body_falsy (req : request) (j : json) :
  req_json req = Some j → Json.truthy j = false →
  parse_body req = Ok (JStr "anonymous", JNull).
Proof. intros Hj Hf. unfold parse_body, Json.or. by rewrite Hj, Hf. Qed.

Lemma parse_body_not_object (req : request) (j : json) :
  req_json req = Some j → Json.truthy j = true → (∀ d, j ≠ JObject d) →
  parse_body req = Raise (AttributeError "object has no attribute 'get'").
Proof.
  intros Hj Ht Hd. unfold parse_body, Json.or. rewrite Hj, Ht.
  destruct j; try done. by destruct (Hd d).
Qed.

End RequestBody.

(** X8. When the question is missing, or the body cannot be read, the
    inference provider is not consulted: the response and the telemetry
    are the same whatever the provider would have done. *)
Theorem missing_question_skips_provider (env : environment) (req : request)
    (create' : value → result completion) :
  (∀ user_type question,
     parse_body req = Ok (user_type, question) → Json.truthy question = false) →
  serve env req
  = serve (Environment (env_config env) (env_request_id env) (env_session_id env)
                       (env_latency_ms env) create') req.
Proof.
  intros Hq. destruct (parse_body req) as [[ut q]|e] eqn:Hparse.
  - specialize (Hq ut q eq_refl).
    eval_generation. rewrite Hparse. eval_generation. rewrite Hq. reflexivity.
  - eval_generation. rewrite Hparse. reflexivity.
Qed.

Lemma missing_question_skips_provider_witness :
  serve (sample_env rate_limited) (sample_request (Some (JObject [])))
  = serve (sample_env (answered "unused")) (sample_request (Some (JObject []))).
Proof.
  apply (missing_question_skips_provider
           (sample_env rate_limited) (sample_request (Some (JObject [])))
           (λ _, answered "unused")).
  intros ut q [= <- <-]. reflexivity.
Defined.

(** X9. A body that decodes to a falsy JSON value of any type ([null],
    [false], [0], the empty string, list or object) is treated as the
    empty object: the answer is 400 for a missing question, on behalf of
    the user [anonymous]. *)
Theorem falsy_body_is_missing_question (env : environment) (req : request) (j : json) :
  req_json req = Some j →
  Json.truthy j = false →
  (serve env req).1
  = Ok (Response
          (VDict [("error", VStr "Missing 'question' in body");
                  ("sessionId", VStr (env_session_id env));
                  ("userId", VJson (JStr "anonymous"))])
          400).
Proof.
  intros Hj Hf. pose proof (parse_body_falsy req j Hj Hf) as Hparse.
  eval_generation. rewrite Hparse. eval_generation. reflexivity.
Qed.

Lemma falsy_body_is_missing_question_witness :
  (serve (sample_env rate_limited) (sample_request (Some (JList [])))).1
  = Ok (Response
          (VDict [("error", VStr "Missing 'question' in body");
                  ("sessionId", VStr "3f2b8c1e-0000-4000-8000-000000000002");
                  ("userId", VJson (JStr "anonymous"))])
          400).
Proof.
  apply (falsy_body_is_missing_question
           (sample_env rate_limited) (sample_request (Some (JList []))) (JList [])
           eq_refl eq_refl).
Defined.

(** X10. A body that is not JSON, or that decodes to a truthy value
    that is not an object (a number, a string, a non-empty list, [true]),
    is answered 500 with the generic failure body, not 400. *)
Theorem unreadable_body_is_server_error (env : environment) (req : request) :
  (req_json req = None
   ∨ ∃ j, req_json req = Some j ∧ Json.truthy j = true ∧ ∀ d, j ≠ JObject d) →
  (serve env req).1 = Ok (Response (VDict [("error", VStr "request_failed")]) 500).
Proof.
  intros Hbody.
  assert (∃ e, parse_body req = Raise e ∧ classified_status e = 500) as (e & Hparse & He).
  { destruct Hbody as [Hnone|(j & Hj & Ht & Hd)].
    - eexists. split; [unfold parse_body; by rewrite Hnone|done].
    - eexists. split; [by apply (parse_body_not_object req j)|done]. }
  destruct (serve_parse_failure env req e Hparse) as [st Hst].
  rewrite Hst, He. reflexivity.
Qed.

Lemma unreadable_body_is_server_error_witness :
  (serve (sample_env rate_limited) (sample_request (Some (JList [JStr "question"])))).1
  = Ok (Response (VDict [("error", VStr "request_failed")]) 500).
Proof.
  apply (unreadable_body_is_server_error
           (sample_env rate_limited) (sample_request (Some (JList [JStr "question"])))).
  right. exists (JList [JStr "question"]). split_and!; [reflexivity|reflexivity|done].
Defined.

(** X11. The caller classification read from a body is never falsy: it
    is the body's [userType] when that is truthy and the string
    [anonymous] otherwise. *)
Theorem user_type_never_falsy (req : request) (user_type question : json) :
  parse_body req = Ok (user_type, question) →
  Json.truthy user_type = true
  ∧ ∀ d, req_json req = Some (JObject d) →
         user_type = (if Json.truthy (default JNull (PyDict.get d "userType"))
                      then default JNull (PyDict.get d "userType")
                      else JStr "anonymous").
Proof.
  unfold parse_body.
  destruct (req_json req) as [j|]; [|done].
  destruct (Json.get (Json.or j (JObject [])) "userType") as [ut|] eqn:Hut; [|done].
  destruct (Json.get (Json.or j (JObject [])) "question") as [q|]; [|done].
  intros [= <- <-]. split.
  - unfold Json.or at 1. by destruct (Json.truthy ut) eqn:Ht.
  - intros d [= ->]. unfold Json.or in Hut |- *.
    destruct d as [|kv d]; simpl in Hut; injection Hut as <-; reflexivity.
Qed.

Lemma user_type_never_falsy_witness :
  Json.truthy (JStr "anonymous") = true.
Proof.
  destruct (user_type_never_falsy
              (sample_request (Some (JObject [("userType", JStr ""); ("question", JStr "hi")])))
              (JStr "anonymous") (JStr "hi") eq_refl) as [Htruthy _].
  exact Htruthy.
Defined.

(** X12. When the completion reports no usage (the attribute is missing
    or [None], or an empty dict), the request still succeeds: the token
    counts are all logged as 0, no token metric is incremented, and the
    answer is returned with status 200. *)
Theorem no_usage_reported (env : environment) (req : request)
    (user_type question : json) (answer : option string) (u : usage) :
  parse_body req = Ok (user_type, question) →
  Json.truthy question = true →
  env_create env (messages user_type question) = Ok (Completion answer u) →
  usage_or_empty u = UsageDict [] →
  (serve env req).1
  = Ok (Response (VDict [("answer", VOptStr answer);
                         ("sessionId", VStr (env_session_id env));
                         ("userId", VJson user_type)]) 200)
  ∧ count is_token_metric (telemetry (serve env req).2) = 0%nat
  ∧ In (Log INFO "llm_usage"
          [("request.id", VStr (env_request_id env));
           ("llm.model", VStr (DEFAULT_MODEL (env_config env)));
           ("usage.prompt_tokens", VInt 0);
           ("usage.completion_tokens", VInt 0);
           ("usage.total_tokens", VInt 0)] None)
       (telemetry (serve env req).2).
Proof.
  intros Hparse Hq Hcreate Hu.
  destruct (compute_cost_zero_tokens (env_config env)) as [[[ic oc] tc] Hcost].
  eval_generation. rewrite Hparse. eval_generation. rewrite Hq. eval_generation.
  rewrite Hcreate. eval_generation. rewrite Hu.
  rewrite read_tokens_empty. eval_generation.
  rewrite read_tokens_empty. eval_generation.
  rewrite read_tokens_empty. change (0 =? 0) with true. eval_generation.
  rewrite Hcost. eval_generation.
  repeat (run_step; eval_generation).
  all: split_and!; [reflexivity | reflexivity | find_event].
Qed.

Lemma no_usage_reported_witness :
  count is_token_metric
    (telemetry (serve (sample_env (Ok (Completion (Some "Hello.") UsageNone)))
                      (sample_request (asks "What is observability?"))).2) = 0%nat.
Proof.
  destruct (no_usage_reported
              (sample_env (Ok (Completion (Some "Hello.") UsageNone)))
              (sample_request (asks "What is observability?"))
              (JStr "anonymous") (JStr "What is observability?") (Some "Hello.") UsageNone
              eq_refl eq_refl eq_refl eq_refl) as (_ & Hcount & _).
  exact Hcount.
Defined.

(** X13. When the completion's usage is an attribute object without a
    [get] method and one of its three counts is 0, reading the counts
    raises and the request is answered 500 with the generic failure
    body, although the provider answered. *)
Theorem zero_count_usage_object_fails (env : environment) (req : request)
    (user_type question : json) (answer : option string) (p c t : Z) :
  parse_body req = Ok (user_type, question) →
  Json.truthy question = true →
  env_create env (messages user_type question)
  = Ok (Completion answer (UsageObject p c t)) →
  p = 0 ∨ c = 0 ∨ t = 0 →
  (serve env req).1 = Ok (Response (VDict [("error", VStr "request_failed")]) 500).
Proof.
  intros Hparse Hq Hcreate Hzero.
  eval_generation. rewrite Hparse. eval_generation. rewrite Hq. eval_generation.
  rewrite Hcreate. eval_generation.
  change (usage_or_empty (UsageObject p c t)) with (UsageObject p c t).
  unfold read_tokens, usage_getattr, usage_get.
  repeat match goal with
         | |- context [decide (?a = ?b)] => destruct (decide (a = b)); try done
         end.
  destruct (p =? 0) eqn:Hp; [reflexivity|].
  destruct (c =? 0) eqn:Hc; [repeat run_step; reflexivity|].
  destruct (t =? 0) eqn:Ht; [repeat run_step; reflexivity|].
  apply Z.eqb_neq in Hp, Hc, Ht. lia.
Qed.

Lemma zero_count_usage_object_fails_witness :
  (serve (sample_env (Ok (Completion (Some "Hello.") (UsageObject 12 0 12))))
         (sample_request (asks "What is observability?"))).1
  = Ok (Response (VDict [("error", VStr "request_failed")]) 500).
Proof.
  apply (zero_count_usage_object_fails
           (sample_env (Ok (Completion (Some "Hello.") (UsageObject 12 0 12))))
           (sample_request (asks "What is observability?"))
           (JStr "anonymous") (JStr "What is observability?") (Some "Hello.") 12 0 12
           eq_refl eq_refl eq_refl).
  right. left. reflexivity.
Defined.

(** X14. No tracer span ever gets an answer excerpt of more than 500
    characters. *)
Theorem excerpts_are_bounded (env : environment) (req : request) :
  Forall bounded_excerpt (telemetry (serve env req).2).
Proof.
  by destruct (handler_facts env req) as (r & _ & _ & _ & _ & _ & _ & _ & _ & _ & H & _).
Qed.

(** X15. When a request is answered 200, the usage of the completion is
    on record consistently: the same three token counts are in the usage
    log, in the Langfuse generation and on both tracer spans; the
    Langfuse generation carries the costs as computed, and both tracer
    spans carry those costs scaled by the configured factor. *)
Theorem usage_recorded_consistently (env : environment) (req : request)
    (r : response) (st : state) :
  serve env req = (Ok r, st) →
  status r = 200 →
  ∃ answer, usage_on_record env answer (telemetry st).
Proof.
  intros Hs H200.
  destruct (handler_facts env req)
    as (r' & Hr & _ & _ & _ & _ & _ & _ & _ & _ & _ & _ & H).
  rewrite Hs in Hr, H. cbn [fst snd] in Hr, H. injection Hr as <-. by apply H.
Qed.

Lemma usage_recorded_consistently_witness :
  ∃ answer,
    usage_on_record (sample_env (answered "Observability is asking questions.")) answer
      (telemetry (serve (sample_env (answered "Observability is asking questions."))
                        (sample_request (asks "What is observability?"))).2).
Proof.
  apply (usage_recorded_consistently
           (sample_env (answered "Observability is asking questions."))
           (sample_request (asks "What is observability?"))
           (Response
              (VDict [("answer", VStr "Observability is asking questions.");
                      ("sessionId", VStr "3f2b8c1e-0000-4000-8000-000000000002");
                      ("userId", VJson (JStr "anonymous"))])
              200)
           (serve (sample_env (answered "Observability is asking questions."))
                  (sample_request (asks "What is observability?"))).2).
  - vm_compute. reflexivity.
  - reflexivity.
Defined.

(** X16. The terminal log event of a request comes right after a latency
    observation and repeats its latency and the status code of the
    response. *)
Theorem terminal_log_matches_observation (env : environment) (req : request) :
  ∃ r, (serve env req).1 = Ok r
       ∧ terminal_log_follows_observation (env_request_id env) (status r)
           (telemetry (serve env req).2).
Proof.
  destruct (handler_facts env req)
    as (r & Hr & _ & _ & _ & _ & _ & _ & _ & _ & _ & H & _).
  by exists r.
Qed.

(** X17. A header dict without sensitive names is returned as it is,
    entry for entry. *)
Theorem scrub_headers_identity (h : PyDict.dict string) :
  PyDict.dict_wf h →
  (∀ k, k ∈ PyDict.keys h → ¬ sensitive_key k) →
  _scrub_headers (Some h) = h.
Proof.
  intros Hwf Hk. rewrite scrub_headers_map by done.
  clear Hwf. induction h as [|[k v] h IH]; [done|].
  simpl. rewrite scrub_value_other.
  - f_equal. apply IH. intros k' Hk'. apply Hk. by right.
  - apply Hk. by left.
Qed.

Lemma scrub_headers_identity_witness :
  _scrub_headers (Some [("Accept", "*/*"); ("X-Request-Id", "42")])
  = [("Accept", "*/*"); ("X-Request-Id", "42")].
Proof.
  apply (scrub_headers_identity [("Accept", "*/*"); ("X-Request-Id", "42")]).
  - by_decide.
  - intros k Hk Hs%sensitive_key_iff. revert Hs.
    repeat (apply elem_of_cons in Hk as [->|Hk]);
      [apply (bool_decide_eq_false_1 _); vm_compute; reflexivity..|].
    by apply elem_of_nil in Hk.
Defined.

(* ===================================================================== *)
(** * Properties of the process bootstrap                                 *)
(* ===================================================================== *)

Section BootstrapFacts.

Implicit Types (environ m : gmap string string) (s old new : string).

Lemma startswith_cons (c a : ascii) (s p : string) :
  startswith (String c s) (String a p)
  = if decide (a = c) then startswith s p else false.
Proof. reflexivity. Qed.

(** A prefix without a colon that shows after the replacement was there
    before it: replaced text starts with a colon. *)
Lemma startswith_replace_colon_free (q s : string) :
  colon_free q = true →
  startswith (replace_from ":32417" ":32418" 0 s) q = true →
  startswith s q = true.
Proof.
  revert s. induction q as [|d q IH]; intros s Hq; [done|].
  cbn [colon_free] in Hq. apply andb_true_iff in Hq as [Hd Hq].
  destruct s as [|c s]; [done|].
  cbn [replace_from].
  destruct (startswith (String c s) ":32417") eqn:Hocc.
  - cbv [String.append]. cbn [startswith].
    destruct (decide (d = ":"%char)) as [->|_]; [|discriminate].
    by rewrite bool_decide_eq_true_2 in Hd.
  - cbn [startswith]. destruct (decide (d = c)) as [->|_]; [|done].
    by apply IH.
Qed.

(** No occurrence of the old port is left. *)
Lemma replace_from_no_occurrence (s : string) (skip : nat) :
  contains ":32417" (replace_from ":32417" ":32418" skip s) = false.
Proof.
  revert skip. induction s as [|c s IH]; intros skip; [done|].
  cbn [replace_from]. destruct skip as [|k]; [|apply IH].
  destruct (startswith (String c s) ":32417") eqn:Hocc.
  - change (String.length ":32417" - 1)%nat with 5%nat.
    cbv [String.append]. cbn. apply IH.
  - cbn [contains]. rewrite IH, orb_false_r.
    change ":32417" with (String ":" "32417") at 1.
    rewrite startswith_cons. destruct (decide (":"%char = c)) as [<-|_]; [|done].
    destruct (startswith (replace_from ":32417" ":32418" 0 s) "32417") eqn:Hstart; [|done].
    apply startswith_replace_colon_free in Hstart; [|done].
    change ":32417" with (String ":" "32417") in Hocc.
    rewrite startswith_cons, Hstart in Hocc.
    by destruct (decide (":"%char = ":"%char)).
Qed.

Lemma str_replace_no_occurrence (s : string) :
  contains ":32417" (str_replace s ":32417" ":32418") = false.
Proof. apply replace_from_no_occurrence. Qed.

Lemma lookup_setdefault m (name value k : string) :
  setdefault m name value !! k
  = if decide (name = k) then Some (default value (m !! k)) else m !! k.
Proof.
  unfold setdefault. destruct (decide (name = k)) as [->|Hne].
  - destruct (m !! k) eqn:Hk; [by rewrite Hk|]. by rewrite lookup_insert_eq.
  - destruct (m !! name); [done|]. by rewrite lookup_insert_ne.
Qed.

Lemma grpc_is_not_http (protocol : string) :
  startswith protocol "grpc" = true → startswith protocol "http" = false.
Proof.
  destruct protocol as [|c p]; [done|]. cbn [startswith].
  destruct (decide ("g"%char = c)) as [<-|_]; [|done].
  by destruct (decide ("h"%char = "g"%char)).
Qed.

(** The lookups of the configured environment, variable by variable. *)
Lemma lookup_configure_environ_other environ (k : string) :
  k ≠ "OTEL_EXPORTER_OTLP_ENDPOINT" →
  configure_environ environ !! k
  = if bool_decide (k ∈ ["OTEL_TRACES_EXPORTER"; "OTEL_METRICS_EXPORTER";
                          "OTEL_LOGS_EXPORTER"])
    then Some (default "otlp" (environ !! k))
    else environ !! k.
Proof.
  intros Hk. unfold configure_environ.
  set (environ1 := setdefault _ _ _).
  assert (environ1 !! k
          = if bool_decide (k ∈ ["OTEL_TRACES_EXPORTER"; "OTEL_METRICS_EXPORTER";
                                  "OTEL_LOGS_EXPORTER"])
            then Some (default "otlp" (environ !! k))
            else environ !! k) as H1.
  { unfold environ1. rewrite !lookup_setdefault.
    destruct (decide ("OTEL_LOGS_EXPORTER" = k)) as [<-|Hl]; [done|].
    destruct (decide ("OTEL_METRICS_EXPORTER" = k)) as [<-|Hm]; [done|].
    destruct (decide ("OTEL_TRACES_EXPORTER" = k)) as [<-|Ht]; [done|].
    rewrite bool_decide_eq_false_2; [done|].
    rewrite !elem_of_cons, elem_of_nil. naive_solver. }
  destruct (environ1 !! "OTEL_EXPORTER_OTLP_ENDPOINT") as [ep|]; [|done].
  destruct (PyStr.truthy ep && startswith (_OTEL_PROTOCOL environ) "http"); [|done].
  destruct (contains ":32417" ep); [|done].
  by rewrite lookup_insert_ne.
Qed.

Lemma lookup_configure_environ_endpoint environ :
  configure_environ environ !! "OTEL_EXPORTER_OTLP_ENDPOINT"
  = match environ !! "OTEL_EXPORTER_OTLP_ENDPOINT" with
    | Some ep =>
        if PyStr.truthy ep && startswith (_OTEL_PROTOCOL environ) "http"
           && contains ":32417" ep
        then Some (str_replace ep ":32417" ":32418")
        else Some ep
    | None => None
    end.
Proof.
  unfold configure_environ.
  set (environ1 := setdefault _ _ _).
  assert (environ1 !! "OTEL_EXPORTER_OTLP_ENDPOINT"
          = environ !! "OTEL_EXPORTER_OTLP_ENDPOINT") as H1.
  { unfold environ1. by rewrite !lookup_setdefault. }
  destruct (environ !! "OTEL_EXPORTER_OTLP_ENDPOINT") as [ep|] eqn:Hep;
    rewrite H1; [|done].
  destruct (PyStr.truthy ep && startswith (_OTEL_PROTOCOL environ) "http");
    simpl; [|done].
  destruct (contains ":32417" ep); [|done].
  by rewrite lookup_insert_eq.
Qed.

End BootstrapFacts.

(** X18. Once the bootstrap has run under an HTTP protocol setting, the
    collector endpoint in the environment no longer mentions the gRPC
    port [:32417]. *)
Theorem configure_environ_no_grpc_port (environ : gmap string string) (ep : string) :
  startswith (_OTEL_PROTOCOL environ) "http" = true →
  configure_environ environ !! "OTEL_EXPORTER_OTLP_ENDPOINT" = Some ep →
  contains ":32417" ep = false.
Proof.
  intros Hhttp. rewrite lookup_configure_environ_endpoint.
  destruct (environ !! "OTEL_EXPORTER_OTLP_ENDPOINT") as [ep0|]; [|done].
  rewrite Hhttp, andb_true_r.
  destruct (PyStr.truthy ep0) eqn:Htruthy; simpl.
  - destruct (contains ":32417" ep0) eqn:Hc; intros [= <-]; [|done].
    apply str_replace_no_occurrence.
  - intros [= <-]. by destruct ep0.
Qed.

Lemma configure_environ_no_grpc_port_witness :
  configure_environ {[ "OTEL_EXPORTER_OTLP_PROTOCOL" := "HTTP/protobuf";
                       "OTEL_EXPORTER_OTLP_ENDPOINT" := "http://collector:32417" ]}
    !! "OTEL_EXPORTER_OTLP_ENDPOINT" = Some "http://collector:32418"
  ∧ contains ":32417" "http://collector:32418" = false.
Proof.
  split; [vm_compute; reflexivity|].
  apply (configure_environ_no_grpc_port
           {[ "OTEL_EXPORTER_OTLP_PROTOCOL" := "HTTP/protobuf";
              "OTEL_EXPORTER_OTLP_ENDPOINT" := "http://collector:32417" ]}).
  - vm_compute. reflexivity.
  - vm_compute. reflexivity.
Defined.

(** X19. The bootstrap never changes a variable that is already set,
    except the endpoint; the three exporter selectors are set
    afterwards; and the endpoint itself is left alone whenever the gRPC
    exporters are the ones selected. *)
Theorem configure_environ_preserves (environ : gmap string string) :
  (∀ k v, k ≠ "OTEL_EXPORTER_OTLP_ENDPOINT" → environ !! k = Some v →
          configure_environ environ !! k = Some v)
  ∧ (∀ k, k ∈ ["OTEL_TRACES_EXPORTER"; "OTEL_METRICS_EXPORTER"; "OTEL_LOGS_EXPORTER"] →
          configure_environ environ !! k = Some (default "otlp" (environ !! k)))
  ∧ (exporter_transport (_OTEL_PROTOCOL environ) = OTLP_GRPC →
     configure_environ environ !! "OTEL_EXPORTER_OTLP_ENDPOINT"
     = environ !! "OTEL_EXPORTER_OTLP_ENDPOINT").
Proof.
  split_and!.
  - intros k v Hk Hv. rewrite lookup_configure_environ_other, Hv by done.
    by destruct (bool_decide _).
  - intros k Hk. rewrite lookup_configure_environ_other.
    + by rewrite bool_decide_eq_true_2.
    + intros ->. revert Hk. rewrite !elem_of_cons, elem_of_nil. naive_solver.
  - unfold exporter_transport.
    destruct (startswith (_OTEL_PROTOCOL environ) "grpc") eqn:Hgrpc; [|done].
    intros _. rewrite lookup_configure_environ_endpoint.
    destruct (environ !! "OTEL_EXPORTER_OTLP_ENDPOINT") as [ep|]; [|done].
    by rewrite (grpc_is_not_http _ Hgrpc), andb_false_r.
Qed.

Lemma configure_environ_preserves_witness :
  configure_environ {[ "OTEL_EXPORTER_OTLP_PROTOCOL" := "GRPC";
                       "OTEL_EXPORTER_OTLP_ENDPOINT" := "http://collector:32417" ]}
    !! "OTEL_EXPORTER_OTLP_ENDPOINT" = Some "http://collector:32417".
Proof.
  destruct (configure_environ_preserves
              {[ "OTEL_EXPORTER_OTLP_PROTOCOL" := "GRPC";
                 "OTEL_EXPORTER_OTLP_ENDPOINT" := "http://collector:32417" ]})
    as (_ & _ & Hgrpc).
  rewrite Hgrpc; [reflexivity|]. vm_compute. reflexivity.
Defined.

(** X20. Running the bootstrap on an environment it has already
    configured changes nothing more. *)
Theorem configure_environ_idempotent (environ : gmap string string) :
  configure_environ (configure_environ environ) = configure_environ environ.
Proof.
  assert (_OTEL_PROTOCOL (configure_environ environ) = _OTEL_PROTOCOL environ) as Hproto.
  { unfold _OTEL_PROTOCOL. by rewrite lookup_configure_environ_other. }
  apply map_eq. intros k.
  destruct (decide (k = "OTEL_EXPORTER_OTLP_ENDPOINT")) as [->|Hk].
  - rewrite (lookup_configure_environ_endpoint (configure_environ environ)), Hproto.
    rewrite lookup_configure_environ_endpoint.
    destruct (environ !! "OTEL_EXPORTER_OTLP_ENDPOINT") as [ep|]; [|done].
    destruct (PyStr.truthy ep && startswith (_OTEL_PROTOCOL environ) "http"
              && contains ":32417" ep) eqn:Hnudge; [|by rewrite Hnudge].
    by rewrite str_replace_no_occurrence, andb_false_r.
  - rewrite !lookup_configure_environ_other by done.
    destruct (bool_decide _); [|done].
    by destruct (environ !! k).
Qed.
